(** * omnisearch-sdk: the fan-out engine [webSearch], the debug hook and the
    provider adapters (perplexity, parallel, arxiv), embedded in Rocq.

    Conventions of the embedding.
    - A JavaScript string is a [string]; its characters stand for code units
      below 256.
    - A property that may be [undefined] is an [option]; a number is a [Z].
    - A computation that may throw, call the logger or reach the network is a
      value of [M A]: the trace of observable events it has produced, followed
      by how it completed.  An [async] function that rejects is a computation
      that throws; [await] inside [try] turns the rejection into the caught
      value.  Adapters launched together are run in list order: they share no
      state, so the settled values do not depend on the interleaving. *)

From Stdlib Require Import Bool List ZArith Lia Ascii String DecimalString.
Import ListNotations.
Set Warnings "-register-all".
Local Open Scope list_scope.
Local Open Scope string_scope.

(* ================================================================== *)
(** ** JavaScript strings *)

Module JsString.

(** [s.includes(t)] *)
Fixpoint includes (s t : string) : bool :=
  String.prefix t s ||
  match s with
  | EmptyString => false
  | String _ s' => includes s' t
  end.

(** White space and line terminators among the code units below 256
    (TAB, LF, VT, FF, CR, SP, NBSP): what [trim] strips and [\s] matches. *)
Definition isWhitespace (c : ascii) : bool :=
  let n := nat_of_ascii c in
  ((9 <=? n)%nat && (n <=? 13)%nat) || (n =? 32)%nat || (n =? 160)%nat.

Fixpoint trimStart (s : string) : string :=
  match s with
  | EmptyString => EmptyString
  | String c s' => if isWhitespace c then trimStart s' else s
  end.

Fixpoint trimEnd (s : string) : string :=
  match s with
  | EmptyString => EmptyString
  | String c s' =>
      match trimEnd s' with
      | EmptyString => if isWhitespace c then EmptyString else String c EmptyString
      | r => String c r
      end
  end.

(** [s.trim()] *)
Definition trim (s : string) : string := trimEnd (trimStart s).

(** [l.join(sep)] *)
Fixpoint join (sep : string) (l : list string) : string :=
  match l with
  | [] => ""
  | [x] => x
  | x :: rest => x ++ sep ++ join sep rest
  end.

(** Template-literal rendering of a non-negative integer ([xs.length]). *)
Definition ofNat (n : nat) : string := NilZero.string_of_uint (Nat.to_uint n).

(** Template-literal rendering of an integer. *)
Definition ofZ (z : Z) : string := NilZero.string_of_int (Z.to_int z).

(** Truthiness of a possibly-undefined string: [undefined] and [''] are falsy. *)
Definition truthy (s : option string) : bool :=
  match s with
  | None => false
  | Some EmptyString => false
  | Some _ => true
  end.

(** [a || b] on possibly-undefined strings. *)
Definition orElse (a b : option string) : option string :=
  if truthy a then a else b.

(** The string made only of white space (possibly empty). *)
Definition blank (s : string) : bool :=
  match trim s with EmptyString => true | _ => false end.

(** [s.replace(/\n\s*/g, ' ')]: each line feed together with the white space
    that follows it becomes one space.  [skipping] is true while the scan is
    inside the [\s*] part of a match. *)
Fixpoint collapseNewlines (skipping : bool) (s : string) : string :=
  match s with
  | EmptyString => EmptyString
  | String c s' =>
      if skipping && isWhitespace c then collapseNewlines true s'
      else if Ascii.eqb c "010"%char then String " "%char (collapseNewlines true s')
      else String c (collapseNewlines false s')
  end.

(** [s.replace('/abs/', '/pdf/')]: the first occurrence only. *)
Fixpoint replaceFirst (pat rep s : string) : string :=
  if String.prefix pat s
  then rep ++ String.substring (String.length pat) (String.length s - String.length pat) s
  else match s with
       | EmptyString => EmptyString
       | String c s' => String c (replaceFirst pat rep s')
       end.

End JsString.

(* ================================================================== *)
(** ** Values, thrown values, events and the computation type *)

(** Data handed to the logger or carried as a raw body ([unknown]). *)
Inductive JsData : Type :=
| JUndefined
| JNull
| JBool (b : bool)
| JNum (n : Z)
| JStr (s : string)
| JArr (items : list JsData)
| JObj (fields : list (string * JsData)).

Definition jsTruthy (d : JsData) : bool :=
  match d with
  | JUndefined | JNull => false
  | JBool b => b
  | JNum n => negb (n =? 0)%Z
  | JStr s => negb (String.eqb s "")
  | JArr _ | JObj _ => true
  end.

Definition jOptStr (s : option string) : JsData :=
  match s with Some x => JStr x | None => JUndefined end.

Definition jOptNum (n : option Z) : JsData :=
  match n with Some x => JNum x | None => JUndefined end.

Definition jStrs (l : list string) : JsData := JArr (map JStr l).

(** What a [throw] (or a rejected promise) carries.  [HttpError] extends
    [Error]; any other thrown value is kept as its [String(value)]. *)
Inductive Thrown : Type :=
| HttpError (statusCode : Z) (message : string) (parsedResponseBody : option JsData)
| Error (message : string)
| NonError (str : string).

(** [error instanceof Error ? error.message : String(error)] *)
Definition messageOf (e : Thrown) : string :=
  match e with
  | HttpError _ m _ => m
  | Error m => m
  | NonError s => s
  end.

(** [error instanceof HttpError ? error.statusCode : undefined] *)
Definition statusCodeOf (e : Thrown) : option Z :=
  match e with
  | HttpError c _ _ => Some c
  | _ => None
  end.

(** Observable events. *)
Inductive Event : Type :=
| EvLogger (message : string) (data : option JsData)   (* caller's logger called *)
| EvConsole (line : string) (data : option JsData)      (* console.log *)
| EvSearch (provider : string)                          (* an adapter's search invoked *)
| EvHttp (method url : string).                         (* a transport request issued *)

Inductive Completion (A : Type) : Type :=
| Normal (a : A)
| Throw (e : Thrown).
Arguments Normal {A} a.
Arguments Throw {A} e.

Definition M (A : Type) : Type := (list Event * Completion A)%type.

Definition ret {A} (a : A) : M A := ([], Normal a).
Definition throw {A} (e : Thrown) : M A := ([], Throw e).
Definition emit (ev : Event) : M unit := ([ev], Normal tt).

Definition bind {A B} (m : M A) (f : A -> M B) : M B :=
  match m with
  | (t, Normal a) => let (t', c) := f a in ((t ++ t')%list, c)
  | (t, Throw e) => (t, Throw e)
  end.

(** [try { m } catch (e) { h e }] *)
Definition tryCatch {A} (m : M A) (h : Thrown -> M A) : M A :=
  match m with
  | (t, Normal a) => (t, Normal a)
  | (t, Throw e) => let (t', c) := h e in ((t ++ t')%list, c)
  end.

Definition trace {A} (m : M A) : list Event := fst m.
Definition outcome {A} (m : M A) : Completion A := snd m.

Notation "x <- m ;; k" := (bind m (fun x => k))
  (at level 61, m at next level, right associativity).
Notation "m ;;; k" := (bind m (fun _ => k))
  (at level 61, right associativity).

(** [xs.map(f)] for a callback that may throw, run left to right. *)
Fixpoint mapM {A B} (f : A -> M B) (xs : list A) : M (list B) :=
  match xs with
  | [] => ret []
  | x :: rest => y <- f x ;; ys <- mapM f rest ;; ret (y :: ys)
  end.

(* ================================================================== *)
(** ** utils/debug.ts *)

Module Debug.

(** A logging function: the model records the call and asks the function
    whether it returns or throws. *)
Definition Logger : Type := string -> option JsData -> Completion unit.

Record DebugOptions : Type := {
  enabled : option bool;
  logRequests : option bool;
  logResponses : option bool;
  logger : option Logger
}.

(** The merged options [{ ...defaultDebugOptions, ...options }].  The default
    flags are [false] and the default logger is the console one, so a flag
    that is absent or [undefined] is falsy and [opts.logger ||
    defaultDebugOptions.logger] is the console logger unless the caller
    gave one. *)
Definition flag (f : DebugOptions -> option bool) (options : option DebugOptions) : bool :=
  match options with
  | Some o => match f o with Some b => b | None => false end
  | None => false
  end.

Definition loggerOf (options : option DebugOptions) : option Logger :=
  match options with
  | Some o => logger o
  | None => None
  end.

(** [defaultDebugOptions.logger] *)
Definition defaultLogger (message : string) (data : option JsData) : M unit :=
  match data with
  | Some d => if jsTruthy d
              then emit (EvConsole ("[@omnisearch] " ++ message) (Some d))
              else emit (EvConsole ("[@omnisearch] " ++ message) None)
  | None => emit (EvConsole ("[@omnisearch] " ++ message) None)
  end.

(** The call [logger(message, data)] for the selected logger. *)
Definition callLogger (options : option DebugOptions) (message : string)
           (data : option JsData) : M unit :=
  match loggerOf options with
  | Some f => emit (EvLogger message data) ;;;
              match f message data with
              | Normal _ => ret tt
              | Throw e => throw e
              end
  | None => defaultLogger message data
  end.

Definition log (options : option DebugOptions) (message : string)
           (data : option JsData) : M unit :=
  if flag enabled options
  then tryCatch (callLogger options message data) (fun _ => ret tt)
  else ret tt.

Definition logRequest (options : option DebugOptions) (message : string)
           (data : option JsData) : M unit :=
  if flag enabled options && flag logRequests options
  then tryCatch (callLogger options ("REQUEST: " ++ message) data) (fun _ => ret tt)
  else ret tt.

Definition logResponse (options : option DebugOptions) (message : string)
           (data : option JsData) : M unit :=
  if flag enabled options && flag logResponses options
  then tryCatch (callLogger options ("RESPONSE: " ++ message) data) (fun _ => ret tt)
  else ret tt.

End Debug.

(* ================================================================== *)
(** ** types.ts and the adapters' native records *)

Definition nl : string := String (ascii_of_nat 10) EmptyString.
Definition dq : string := String (ascii_of_nat 34) EmptyString.

(** interface PerplexitySearchResult.  The interface declares [title] as a
    string; the adapter copies the property as it finds it in the parsed
    reply, so the model keeps the case of a reply that has none. *)
Record PerplexitySearchResult : Type := {
  px_title : option string;
  px_url : string;
  px_snippet : string;
  px_date : string;
  px_last_updated : string
}.

(** interface PerplexitySearchResponse; [search] tests [results] for absence. *)
Record PerplexitySearchResponse : Type := {
  px_results : option (list PerplexitySearchResult)
}.

(** interface ParallelWebSearchResult *)
Record ParallelWebSearchResult : Type := {
  pl_url : string;
  pl_title : option string;
  pl_publish_date : option string;
  pl_excerpts : option (list string)
}.

(** interface ParallelSearchResponse; [search] tests each field for absence. *)
Record ParallelSearchResponse : Type := {
  pl_search_id : option string;
  pl_results : option (list ParallelWebSearchResult);
  pl_warnings : option (list JsData);
  pl_usage : option (list JsData)
}.

(** interface ArxivAtomLink *)
Record ArxivAtomLink : Type := {
  ln_href : string;
  ln_rel : string;
  ln_type : option string;
  ln_title : option string
}.

(** interface ArxivAtomEntry; the mapping guards [link], [author] and
    [category] with [?? []] and calls [replace] on [title] and [summary]
    directly, which follow the interface. *)
Record ArxivAtomEntry : Type := {
  ax_id : string;
  ax_updated : string;
  ax_published : string;
  ax_title : string;
  ax_summary : string;
  ax_author : option (list string);      (* the [name] of each author *)
  ax_link : option (list ArxivAtomLink);
  ax_category : option (list string)     (* the [term] of each category *)
}.

(** interface ArxivAtomFeed *)
Record ArxivAtomFeed : Type := {
  ax_entry : option (list ArxivAtomEntry);
  ax_totalResults : string
}.

(** interface ArxivParsedXml; [search] tests [feed] for absence. *)
Record ArxivParsedXml : Type := {
  ax_feed : option ArxivAtomFeed
}.

(** The untransformed source record kept in [raw]. *)
Inductive Raw : Type :=
| RawPerplexity (r : PerplexitySearchResult)
| RawParallel (r : ParallelWebSearchResult)
| RawArxiv (e : ArxivAtomEntry)
| RawOther (d : JsData).

(** interface SearchResult; [title] holds whatever the adapter stored there,
    [None] being [undefined]. *)
Record SearchResult : Type := {
  url : string;
  title : option string;
  snippet : option string;
  content : option string;
  domain : option string;
  publishedDate : option string;
  provider : string;
  raw : option Raw;
  authors : option (list string);
  categories : option (list string)
}.

(** interface SearchOptions (the fields the engine and these adapters read) *)
Record SearchOptions : Type := {
  query : option string;
  idList : option string;
  maxResults : option Z;
  region : option string;
  language : option string;
  timeout : option Z;
  start : option Z;
  sortBy : option string;
  sortOrder : option string;
  debug : option Debug.DebugOptions
}.

(** interface PerplexityConfig *)
Record PerplexityConfig : Type := {
  pxc_apiKey : option string;
  pxc_baseUrl : option string;
  pxc_maxTokens : option Z;
  pxc_maxTokensPerPage : option Z;
  pxc_country : option string;
  pxc_searchDomainFilter : option (list string);
  pxc_searchRecencyFilter : option string;
  pxc_searchAfterDate : option string;
  pxc_searchBeforeDate : option string;
  pxc_searchLanguageFilter : option (list string)
}.

(** interface ParallelConfig *)
Record ParallelConfig : Type := {
  plc_apiKey : option string;
  plc_baseUrl : option string;
  plc_mode : option string;
  plc_maxResults : option Z;
  plc_includeDomains : option (list string);
  plc_excludeDomains : option (list string);
  plc_afterDate : option string;
  plc_beforeDate : option string;
  plc_maxCharsPerResult : option Z;
  plc_excerptCount : option Z;
  plc_fetchStrategy : option string
}.

(** interface ArxivConfig *)
Record ArxivConfig : Type := {
  axc_apiKey : option string;
  axc_baseUrl : option string;
  axc_sortBy : option string;
  axc_sortOrder : option string
}.

(** The [config] a handle carries. *)
Inductive ProviderConfig : Type :=
| CfgPerplexity (c : PerplexityConfig)
| CfgParallel (c : ParallelConfig)
| CfgArxiv (c : ArxivConfig)
| CfgApiKey (apiKey : string).

(** interface SearchProvider *)
Record SearchProvider : Type := {
  name : string;
  config : ProviderConfig;
  search : SearchOptions -> M (list SearchResult)
}.

(** interface PerplexityRequestBody *)
Record PerplexityRequestBody : Type := {
  pxb_query : string;
  pxb_max_results : option Z;
  pxb_max_tokens : option Z;
  pxb_search_domain_filter : option (list string);
  pxb_max_tokens_per_page : option Z;
  pxb_country : option string;
  pxb_search_recency_filter : option string;
  pxb_search_after_date : option string;
  pxb_search_before_date : option string;
  pxb_search_language_filter : option (list string)
}.

(** interfaces ExcerptSettings, SourcePolicy, FetchPolicy, ParallelSearchRequestBody *)
Record ExcerptSettings : Type := {
  ex_max_chars_per_result : option Z;
  ex_count : option Z
}.

Record SourcePolicy : Type := {
  sp_include_domains : option (list string);
  sp_exclude_domains : option (list string);
  sp_after_date : option string;
  sp_before_date : option string
}.

Record ParallelSearchRequestBody : Type := {
  plb_objective : option string;
  plb_mode : option string;
  plb_max_results : option Z;
  plb_excerpts : option ExcerptSettings;
  plb_source_policy : option SourcePolicy;
  plb_fetch_policy : option string       (* [fetch_policy.strategy] *)
}.

(** What the adapters consume from outside the repository's [src]: the
    transport helper ([post], [get] of utils/http), the [URL] constructor,
    [URLSearchParams], [JSON.stringify] and the XML parser.  A transport call
    either returns the parsed body or throws. *)
Record Platform : Type := {
  newURL_hostname : string -> option string;   (* [None]: the constructor throws *)
  postPerplexity : string -> PerplexityRequestBody -> list (string * string) ->
                   option Z -> Completion PerplexitySearchResponse;
  postParallel : string -> ParallelSearchRequestBody -> list (string * string) ->
                 option Z -> Completion ParallelSearchResponse;
  getText : string -> option Z -> Completion string;
  xmlParse : string -> Completion (option ArxivParsedXml);
  urlSearchParams : list (string * string) -> string;
  jsonStringify : JsData -> string
}.

(** A transport call: the request is observable, then the reply settles. *)
Definition request {A} (method u : string) (reply : Completion A) : M A :=
  emit (EvHttp method u) ;;;
  match reply with
  | Normal a => ret a
  | Throw e => throw e
  end.

(** [new URL(u).hostname], which throws a [TypeError] on an unparseable [u]. *)
Definition hostname (P : Platform) (u : string) : M string :=
  match newURL_hostname P u with
  | Some h => ret h
  | None => throw (Error "Invalid URL")
  end.

(** [let domain; try { domain = new URL(u).hostname } catch { domain = undefined }] *)
Definition extractDomain (P : Platform) (u : string) : M (option string) :=
  tryCatch (h <- hostname P u ;; ret (Some h)) (fun _ => ret None).

Definition optField (k : string) (v : option JsData) : list (string * JsData) :=
  match v with Some d => [(k, d)] | None => [] end.

Definition zTruthy (n : option Z) : bool :=
  match n with Some z => negb (z =? 0)%Z | None => false end.

(** [xs?.length] as a condition. *)
Definition nonEmptyList {A} (l : option (list A)) : bool :=
  match l with Some (_ :: _) => true | _ => false end.

Definition isSome {A} (o : option A) : bool :=
  match o with Some _ => true | None => false end.

(* ================================================================== *)
(** ** providers/perplexity.ts *)

Module Perplexity.

Definition DEFAULT_BASE_URL : string := "https://api.perplexity.ai/search".

Definition requestBody (config : PerplexityConfig) (options : SearchOptions)
           (q : string) : PerplexityRequestBody :=
  let maxResults := match maxResults options with Some n => n | None => 10%Z end in
  {| pxb_query := q;
     pxb_max_results := Some (Z.max 1 (Z.min 20 maxResults));
     pxb_max_tokens := pxc_maxTokens config;
     pxb_search_domain_filter := pxc_searchDomainFilter config;
     pxb_max_tokens_per_page := pxc_maxTokensPerPage config;
     pxb_country :=
       if JsString.truthy (region options) then region options
       else if JsString.truthy (pxc_country config) then pxc_country config
       else None;
     pxb_search_recency_filter :=
       if JsString.truthy (pxc_searchRecencyFilter config)
       then pxc_searchRecencyFilter config else None;
     pxb_search_after_date :=
       if JsString.truthy (pxc_searchAfterDate config)
       then pxc_searchAfterDate config else None;
     pxb_search_before_date :=
       if JsString.truthy (pxc_searchBeforeDate config)
       then pxc_searchBeforeDate config else None;
     pxb_search_language_filter :=
       match pxc_searchLanguageFilter config with
       | Some l => Some l
       | None => match language options with
                 | Some lang => if JsString.truthy (Some lang) then Some [lang] else None
                 | None => None
                 end
       end |}.

(** [{ ...requestBody, apiKey: '***' }] as handed to the logger. *)
Definition logBody (b : PerplexityRequestBody) : JsData :=
  JObj ([("query", JStr (pxb_query b))]
        ++ optField "max_results" (option_map JNum (pxb_max_results b))
        ++ optField "max_tokens" (option_map JNum (pxb_max_tokens b))
        ++ optField "search_domain_filter" (option_map jStrs (pxb_search_domain_filter b))
        ++ optField "max_tokens_per_page" (option_map JNum (pxb_max_tokens_per_page b))
        ++ optField "country" (option_map JStr (pxb_country b))
        ++ optField "search_recency_filter" (option_map JStr (pxb_search_recency_filter b))
        ++ optField "search_after_date" (option_map JStr (pxb_search_after_date b))
        ++ optField "search_before_date" (option_map JStr (pxb_search_before_date b))
        ++ optField "search_language_filter" (option_map jStrs (pxb_search_language_filter b))
        ++ [("apiKey", JStr "***")])%list.

(** The object the callback of [response.results.map] returns, [domain]
    being what the [try] around the [URL] constructor left. *)
Definition canonical (domain : option string) (result : PerplexitySearchResult)
  : SearchResult :=
  let publishedDate :=
    if JsString.truthy (Some (px_last_updated result))
    then px_last_updated result else px_date result in
  {| url := px_url result;
     title := px_title result;
     snippet := Some (px_snippet result);
     content := None;
     domain := domain;
     publishedDate := Some publishedDate;
     provider := "perplexity";
     raw := Some (RawPerplexity result);
     authors := None;
     categories := None |}.

(** The callback of [response.results.map]. *)
Definition toSearchResult (P : Platform) (result : PerplexitySearchResult)
  : M SearchResult :=
  domain <- extractDomain P (px_url result) ;;
  ret (canonical domain result).

(** [diagnosticInfo] as the [catch] block computes it. *)
Definition diagnosticInfo (error : Thrown) : string :=
  match error with
  | HttpError statusCode message _ =>
      if (statusCode =? 401)%Z then
        "Invalid API key. Check your Perplexity API key."
      else if (statusCode =? 403)%Z then
        "Access denied. Your Perplexity API key may have insufficient permissions or has expired."
      else if (statusCode =? 429)%Z then
        "Rate limit exceeded. You have reached your Perplexity API quota or sent too many requests."
      else if (statusCode =? 400)%Z then
        "Bad request. Check your search parameters." ++
        (if JsString.includes message "max_results" then
           " Invalid max_results value. Must be between 1 and 20."
         else if JsString.includes message "search_recency_filter" then
           " Invalid search_recency_filter. Use " ++ dq ++ "day" ++ dq ++ ", "
             ++ dq ++ "week" ++ dq ++ ", " ++ dq ++ "month" ++ dq ++ ", or "
             ++ dq ++ "year" ++ dq ++ "."
         else if JsString.includes message "search_after_date"
                 || JsString.includes message "search_before_date" then
           " Invalid date format. Use MM/DD/YYYY format."
         else "")
      else if (statusCode >=? 500)%Z then
        "Perplexity server error. The service might be experiencing issues. Try again later."
      else ""
  | Error message =>
      if JsString.includes message "api_key" || JsString.includes message "apiKey" then
        "Authentication issue. Check your Perplexity API key."
      else if JsString.includes message "timeout" then
        "The request timed out. Try increasing the timeout value or simplifying your query."
      else ""
  | NonError _ => ""
  end.

(** The message of the [Error] the [catch] block throws. *)
Definition failureMessage (error : Thrown) : string :=
  let errorMessage := "Perplexity search failed" ++ ": " ++ messageOf error in
  let diag := diagnosticInfo error in
  if JsString.truthy (Some diag)
  then errorMessage ++ nl ++ nl ++ "Diagnostic information: " ++ diag ++ nl ++ nl
       ++ "Perplexity API docs: https://docs.perplexity.ai/api-reference"
  else errorMessage.

(** [post<PerplexitySearchResponse>(baseUrl, requestBody, { headers, timeout })] *)
Definition reply (P : Platform) (apiKey baseUrl : string) (body : PerplexityRequestBody)
           (options : SearchOptions) : Completion PerplexitySearchResponse :=
  postPerplexity P baseUrl body
    [("Authorization", "Bearer " ++ apiKey); ("Content-Type", "application/json")]
    (timeout options).

Definition searchImpl (P : Platform) (config : PerplexityConfig) (apiKey baseUrl : string)
           (options : SearchOptions) : M (list SearchResult) :=
  let debugOptions := debug options in
  match query options with
  | Some (String c q') =>
      let q := String c q' in
      let body := requestBody config options q in
      Debug.logRequest debugOptions "Perplexity Search request"
        (Some (JObj [("url", JStr baseUrl); ("body", logBody body)])) ;;;
      tryCatch
        (response <- request "POST" baseUrl
                       (reply P apiKey baseUrl body options) ;;
         Debug.logResponse debugOptions "Perplexity Search raw response"
           (Some (JObj [("status", JStr "success");
                        ("itemCount",
                         JNum (match px_results response with
                               | Some l => Z.of_nat (List.length l)
                               | None => 0%Z
                               end));
                        ("query", JStr q)])) ;;;
         match px_results response with
         | None | Some [] =>
             Debug.log debugOptions "Perplexity Search returned no results" None ;;;
             ret []
         | Some results => mapM (toSearchResult P) results
         end)
        (fun error =>
           Debug.log debugOptions "Perplexity Search error"
             (Some (JObj [("error", JStr (messageOf error));
                          ("statusCode", jOptNum (statusCodeOf error));
                          ("diagnosticInfo", JStr (diagnosticInfo error))])) ;;;
           throw (Error (failureMessage error)))
  | _ => throw (Error "Perplexity search requires a query.")
  end.

(** [config.baseUrl || DEFAULT_BASE_URL] *)
Definition baseUrlOf (config : PerplexityConfig) : string :=
  match pxc_baseUrl config with
  | Some (String c b) => String c b
  | _ => DEFAULT_BASE_URL
  end.

(** [createPerplexityProvider]: throws synchronously without an API key. *)
Definition createPerplexityProvider (P : Platform) (config : PerplexityConfig)
  : Completion SearchProvider :=
  match pxc_apiKey config with
  | Some (String c k') =>
      let apiKey := String c k' in
      Normal {| name := "perplexity";
                config := CfgPerplexity config;
                search := searchImpl P config apiKey (baseUrlOf config) |}
  | _ => Throw (Error "Perplexity requires an API key")
  end.

(** The exported [perplexity] object: [name], [config], [search]. *)
Definition perplexity : SearchProvider :=
  {| name := "perplexity";
     config := CfgApiKey "";
     search := fun _options =>
       throw (Error "Perplexity provider must be configured before use. Call perplexity.configure() first.") |}.

(** [perplexity.configure] *)
Definition configure (P : Platform) (config : PerplexityConfig)
  : Completion SearchProvider :=
  createPerplexityProvider P config.

End Perplexity.

(* ================================================================== *)
(** ** providers/parallel.ts *)

Module Parallel.

Definition DEFAULT_BASE_URL : string := "https://api.parallel.ai/v1beta/search".
Definition PARALLEL_BETA_HEADER : string := "search-extract-2025-10-10".

Definition requestBody (config : ParallelConfig) (options : SearchOptions)
           (q : string) : ParallelSearchRequestBody :=
  let maxResults := match maxResults options with Some n => n | None => 10%Z end in
  let effectiveMaxResults :=
    if zTruthy (Some maxResults) then maxResults
    else if zTruthy (plc_maxResults config)
         then match plc_maxResults config with Some n => n | None => 10%Z end
         else 10%Z in
  {| plb_objective := Some q;
     plb_mode := if JsString.truthy (plc_mode config) then plc_mode config else None;
     plb_max_results := Some effectiveMaxResults;
     plb_excerpts :=
       if isSome (plc_maxCharsPerResult config) || isSome (plc_excerptCount config)
       then Some {| ex_max_chars_per_result := plc_maxCharsPerResult config;
                    ex_count := plc_excerptCount config |}
       else None;
     plb_source_policy :=
       if nonEmptyList (plc_includeDomains config)
          || nonEmptyList (plc_excludeDomains config)
          || JsString.truthy (plc_afterDate config)
          || JsString.truthy (plc_beforeDate config)
       then Some {| sp_include_domains :=
                      if nonEmptyList (plc_includeDomains config)
                      then plc_includeDomains config else None;
                    sp_exclude_domains :=
                      if nonEmptyList (plc_excludeDomains config)
                      then plc_excludeDomains config else None;
                    sp_after_date :=
                      if JsString.truthy (plc_afterDate config)
                      then plc_afterDate config else None;
                    sp_before_date :=
                      if JsString.truthy (plc_beforeDate config)
                      then plc_beforeDate config else None |}
       else None;
     plb_fetch_policy :=
       if JsString.truthy (plc_fetchStrategy config)
       then plc_fetchStrategy config else None |}.

(** [{ ...requestBody, apiKey: '***' }] as handed to the logger. *)
Definition logBody (b : ParallelSearchRequestBody) : JsData :=
  JObj (optField "objective" (option_map JStr (plb_objective b))
        ++ optField "mode" (option_map JStr (plb_mode b))
        ++ optField "max_results" (option_map JNum (plb_max_results b))
        ++ optField "excerpts"
             (option_map (fun e =>
                JObj (optField "max_chars_per_result"
                        (option_map JNum (ex_max_chars_per_result e))
                      ++ optField "count" (option_map JNum (ex_count e)))%list)
                (plb_excerpts b))
        ++ optField "source_policy"
             (option_map (fun s =>
                JObj (optField "include_domains" (option_map jStrs (sp_include_domains s))
                      ++ optField "exclude_domains" (option_map jStrs (sp_exclude_domains s))
                      ++ optField "after_date" (option_map JStr (sp_after_date s))
                      ++ optField "before_date" (option_map JStr (sp_before_date s)))%list)
                (plb_source_policy b))
        ++ optField "fetch_policy"
             (option_map (fun s => JObj [("strategy", JStr s)]) (plb_fetch_policy b))
        ++ [("apiKey", JStr "***")])%list.

(** [result.title || 'No title available'] *)
Definition titleOf (result : ParallelWebSearchResult) : string :=
  match pl_title result with
  | Some (String c t) => String c t
  | _ => "No title available"
  end.

(** The object the callback of [response.results.map] returns, [domain]
    being what the [try] around the [URL] constructor left. *)
Definition canonical (domain : option string) (result : ParallelWebSearchResult)
  : SearchResult :=
  let excerpts := match pl_excerpts result with Some l => l | None => [] end in
  let snippet := match excerpts with e :: _ => Some e | [] => None end in
  let content := match excerpts with
                 | _ :: _ => Some (JsString.join (nl ++ nl) excerpts)
                 | [] => None
                 end in
  {| url := pl_url result;
     title := Some (titleOf result);
     snippet := snippet;
     content := content;
     domain := domain;
     publishedDate := pl_publish_date result;
     provider := "parallel";
     raw := Some (RawParallel result);
     authors := None;
     categories := None |}.

(** The callback of [response.results.map]. *)
Definition toSearchResult (P : Platform) (result : ParallelWebSearchResult)
  : M SearchResult :=
  domain <- extractDomain P (pl_url result) ;;
  ret (canonical domain result).

(** [diagnosticInfo] as the [catch] block computes it. *)
Definition diagnosticInfo (error : Thrown) : string :=
  match error with
  | HttpError statusCode message _ =>
      if (statusCode =? 401)%Z then
        "Invalid API key. Check your Parallel API key."
      else if (statusCode =? 403)%Z then
        "Access denied. Your Parallel API key may have insufficient permissions or has expired."
      else if (statusCode =? 429)%Z then
        "Rate limit exceeded. You have reached your Parallel API quota or sent too many requests."
      else if (statusCode =? 400)%Z then
        "Bad request. Check your search parameters." ++
        (if JsString.includes message "objective"
            || JsString.includes message "search_queries" then
           " At least one of objective or search_queries must be provided."
         else if JsString.includes message "max_results" then
           " Invalid max_results value."
         else if JsString.includes message "source_policy" then
           " Invalid source_policy configuration. Check domain and date formats."
         else "")
      else if (statusCode =? 422)%Z then
        "Validation error. The request parameters failed validation checks." ++
        (if JsString.includes message "date" then
           " Invalid date format. Use RFC 3339 date format (YYYY-MM-DD) for afterDate/beforeDate."
         else if JsString.includes message "domain" then
           " Invalid domain format in includeDomains or excludeDomains."
         else if JsString.includes message "mode" then
           " Invalid mode value. Use " ++ dq ++ "one-shot" ++ dq ++ " or "
             ++ dq ++ "agentic" ++ dq ++ "."
         else if JsString.includes message "strategy" then
           " Invalid fetch strategy. Use " ++ dq ++ "cached" ++ dq ++ " or "
             ++ dq ++ "live" ++ dq ++ "."
         else "")
      else if (statusCode >=? 500)%Z then
        "Parallel server error. The service might be experiencing issues. Try again later."
      else ""
  | Error message =>
      if JsString.includes message "api_key" || JsString.includes message "apiKey" then
        "Authentication issue. Check your Parallel API key."
      else if JsString.includes message "timeout" then
        "The request timed out. Try increasing the timeout value or simplifying your query."
      else ""
  | NonError _ => ""
  end.

(** The message of the [Error] the [catch] block throws. *)
Definition failureMessage (error : Thrown) : string :=
  let errorMessage := "Parallel search failed" ++ ": " ++ messageOf error in
  let diag := diagnosticInfo error in
  if JsString.truthy (Some diag)
  then errorMessage ++ nl ++ nl ++ "Diagnostic information: " ++ diag ++ nl ++ nl
       ++ "Parallel API docs: https://api.parallel.ai"
  else errorMessage.

(** [!query || !query.trim()] *)
Definition missingQuery (q : option string) : bool :=
  match q with
  | Some s => negb (JsString.truthy (Some s)) || JsString.blank s
  | None => true
  end.

(** [post<ParallelSearchResponse>(baseUrl, requestBody, { headers, timeout })] *)
Definition reply (P : Platform) (apiKey baseUrl : string) (body : ParallelSearchRequestBody)
           (options : SearchOptions) : Completion ParallelSearchResponse :=
  postParallel P baseUrl body
    [("x-api-key", apiKey); ("Content-Type", "application/json");
     ("parallel-beta", PARALLEL_BETA_HEADER)]
    (timeout options).

Definition searchImpl (P : Platform) (config : ParallelConfig) (apiKey baseUrl : string)
           (options : SearchOptions) : M (list SearchResult) :=
  let debugOptions := debug options in
  match query options with
  | Some q =>
      if missingQuery (Some q) then throw (Error "Parallel search requires a query.")
      else
      let body := requestBody config options q in
      Debug.logRequest debugOptions "Parallel Search request"
        (Some (JObj [("url", JStr baseUrl); ("body", logBody body)])) ;;;
      tryCatch
        (response <- request "POST" baseUrl
                       (reply P apiKey baseUrl body options) ;;
         Debug.logResponse debugOptions "Parallel Search raw response"
           (Some (JObj [("status", JStr "success");
                        ("itemCount",
                         JNum (match pl_results response with
                               | Some l => Z.of_nat (List.length l)
                               | None => 0%Z
                               end));
                        ("searchId",
                         JStr (match JsString.orElse (pl_search_id response) (Some "") with
                               | Some s => s | None => "" end));
                        ("warnings",
                         JArr (match pl_warnings response with Some w => w | None => [] end));
                        ("usage",
                         JArr (match pl_usage response with Some u => u | None => [] end))])) ;;;
         (if nonEmptyList (pl_warnings response)
          then Debug.log debugOptions "Parallel Search warnings"
                 (Some (JObj [("warnings",
                               JArr (match pl_warnings response with
                                     | Some w => w | None => [] end))]))
          else ret tt) ;;;
         match pl_results response with
         | None | Some [] =>
             Debug.log debugOptions "Parallel Search returned no results" None ;;;
             ret []
         | Some results => mapM (toSearchResult P) results
         end)
        (fun error =>
           Debug.log debugOptions "Parallel Search error"
             (Some (JObj [("error", JStr (messageOf error));
                          ("statusCode", jOptNum (statusCodeOf error));
                          ("diagnosticInfo", JStr (diagnosticInfo error))])) ;;;
           throw (Error (failureMessage error)))
  | None => throw (Error "Parallel search requires a query.")
  end.

(** [config.baseUrl || DEFAULT_BASE_URL] *)
Definition baseUrlOf (config : ParallelConfig) : string :=
  match plc_baseUrl config with
  | Some (String c b) => String c b
  | _ => DEFAULT_BASE_URL
  end.

(** [createParallelProvider]: throws synchronously without an API key. *)
Definition createParallelProvider (P : Platform) (config : ParallelConfig)
  : Completion SearchProvider :=
  match plc_apiKey config with
  | Some (String c k') =>
      let apiKey := String c k' in
      Normal {| name := "parallel";
                config := CfgParallel config;
                search := searchImpl P config apiKey (baseUrlOf config) |}
  | _ => Throw (Error "Parallel requires an API key")
  end.

(** The exported [parallel] object. *)
Definition parallel : SearchProvider :=
  {| name := "parallel";
     config := CfgApiKey "";
     search := fun _options =>
       throw (Error "Parallel search provider must be configured before use. Call parallel.configure() first.") |}.

(** [parallel.configure] *)
Definition configure (P : Platform) (config : ParallelConfig)
  : Completion SearchProvider :=
  createParallelProvider P config.

End Parallel.

(* ================================================================== *)
(** ** providers/arxiv.ts *)

Module Arxiv.

Definition DEFAULT_BASE_URL : string := "http://export.arxiv.org/api/query".

Definition digitOf (c : ascii) : option Z :=
  let n := nat_of_ascii c in
  if (48 <=? n)%nat && (n <=? 57)%nat then Some (Z.of_nat (n - 48)) else None.

Fixpoint parseDigits (acc : option Z) (s : string) : option Z :=
  match s with
  | EmptyString => acc
  | String c s' =>
      match digitOf c with
      | Some d => parseDigits (Some (10 * match acc with Some a => a | None => 0 end + d)%Z) s'
      | None => acc
      end
  end.

(** [parseInt(s, 10) || 0] *)
Definition parseIntOrZero (s : string) : Z :=
  let magnitude t := match parseDigits None t with Some n => n | None => 0%Z end in
  match JsString.trimStart s with
  | String c t =>
      if Ascii.eqb c "-"%char then (- magnitude t)%Z
      else if Ascii.eqb c "+"%char then magnitude t
      else magnitude (String c t)
  | EmptyString => 0%Z
  end.

(** The query parameters appended to [URLSearchParams], in order. *)
Definition params (options : SearchOptions) : list (string * string) :=
  let maxResults := match maxResults options with Some n => n | None => 10%Z end in
  let start := match start options with Some n => n | None => 0%Z end in
  let sortBy := match sortBy options with Some s => s | None => "relevance" end in
  let sortOrder := match sortOrder options with Some s => s | None => "descending" end in
  ((if JsString.truthy (query options)
    then match query options with Some q => [("search_query", q)] | None => [] end
    else [])
   ++ (if JsString.truthy (idList options)
       then match idList options with Some i => [("id_list", i)] | None => [] end
       else [])
   ++ [("start", JsString.ofZ start);
       ("max_results", JsString.ofZ maxResults);
       ("sortBy", sortBy);
       ("sortOrder", sortOrder)])%list.

(** [pdfLink]: the explicit pdf link, else the alternate link with [/abs/]
    turned into [/pdf/], else the empty string. *)
Definition pdfLinkOf (links : list ArxivAtomLink) : string :=
  match find (fun l => match ln_title l with
                       | Some t => String.eqb t "pdf" | None => false end) links with
  | Some pdfLinkObj => ln_href pdfLinkObj
  | None =>
      match find (fun l => String.eqb (ln_rel l) "alternate"
                           && match ln_type l with
                              | Some t => String.eqb t "text/html" | None => false end)
                 links with
      | Some alternateLink => JsString.replaceFirst "/abs/" "/pdf/" (ln_href alternateLink)
      | None => ""
      end
  end.

(** [s.replace(/\n\s*/g, ' ').trim()] *)
Definition tidy (s : string) : string :=
  JsString.trim (JsString.collapseNewlines false s).

Definition nonEmptyStrings (l : list string) : list string :=
  filter (fun s => JsString.truthy (Some s)) l.

(** [pdfLink || entry.id] *)
Definition urlOf (entry : ArxivAtomEntry) : string :=
  let links := match ax_link entry with Some l => l | None => [] end in
  let pdfLink := pdfLinkOf links in
  if JsString.truthy (Some pdfLink) then pdfLink else ax_id entry.

(** The callback of [entries.map]. *)
Definition toSearchResult (entry : ArxivAtomEntry) : SearchResult :=
  {| url := urlOf entry;
     title := Some (tidy (ax_title entry));
     snippet := Some (tidy (ax_summary entry));
     content := None;
     domain := None;
     publishedDate :=
       Some (if JsString.truthy (Some (ax_published entry))
             then ax_published entry else ax_updated entry);
     provider := "arxiv";
     raw := Some (RawArxiv entry);
     authors := Some (nonEmptyStrings
                        (match ax_author entry with Some l => l | None => [] end));
     categories := Some (nonEmptyStrings
                           (match ax_category entry with Some l => l | None => [] end)) |}.

(** The message of the [Error] the [catch] block throws. *)
Definition failureMessage (P : Platform) (error : Thrown) : string :=
  match error with
  | HttpError statusCode message body =>
      "Arxiv API error: " ++ JsString.ofZ statusCode ++ " - " ++ message ++
      match body with
      | Some b => if jsTruthy b then nl ++ "Response: " ++ jsonStringify P b else ""
      | None => ""
      end
  | Error message => "Arxiv search failed: " ++ message
  | NonError s => "Arxiv search failed: " ++ s
  end.

(** The engine's result list for a parsed feed. *)
Definition entriesOf (feed : ArxivAtomFeed) : list ArxivAtomEntry :=
  match ax_entry feed with Some l => l | None => [] end.

(** The request URL [`${baseUrl}?${params.toString()}`]. *)
Definition requestUrl (P : Platform) (baseUrl : string) (options : SearchOptions) : string :=
  baseUrl ++ "?" ++ urlSearchParams P (params options).

(** [!query && !idList] *)
Definition missingQuery (options : SearchOptions) : bool :=
  negb (JsString.truthy (query options)) && negb (JsString.truthy (idList options)).

(** The [stack] property of the logged error is not modelled. *)
Definition searchImpl (P : Platform) (baseUrl : string) (options : SearchOptions)
  : M (list SearchResult) :=
  let debugOptions := debug options in
  if missingQuery options
  then throw (Error ("Arxiv search requires either a " ++ dq ++ "query" ++ dq
                     ++ " or an " ++ dq ++ "idList" ++ dq ++ "."))
  else
    let u := requestUrl P baseUrl options in
    Debug.logRequest debugOptions "Arxiv Search request" (Some (JObj [("url", JStr u)])) ;;;
    tryCatch
      (responseXmlText <- request "GET" u (getText P u (timeout options)) ;;
       Debug.log debugOptions "Arxiv raw XML response received"
         (Some (JObj [("length", JNum (Z.of_nat (String.length responseXmlText)))])) ;;;
       parsedXml <- match xmlParse P responseXmlText with
                    | Normal x => ret x
                    | Throw e => throw e
                    end ;;
       Debug.log debugOptions "Arxiv XML parsed successfully" None ;;;
       match parsedXml with
       | Some {| ax_feed := Some feed |} =>
           match entriesOf feed with
           | [] =>
               Debug.log debugOptions "No entries found in Arxiv response" None ;;;
               ret []
           | entries =>
               let results := map toSearchResult entries in
               let totalResults := parseIntOrZero (ax_totalResults feed) in
               Debug.logResponse debugOptions "Arxiv Search successful"
                 (Some (JObj [("status", JStr "success");
                              ("itemCount", JNum (Z.of_nat (List.length results)));
                              ("totalResults", JNum totalResults)])) ;;;
               ret results
           end
       | other =>
           Debug.log debugOptions "Arxiv parsed data is empty or malformed"
             (Some (JObj [("parsedXml",
                           match other with Some _ => JObj [] | None => JNull end)])) ;;;
           ret []
       end)
      (fun error =>
         Debug.log debugOptions "Arxiv Search error"
           (Some (JObj [("error", JStr (messageOf error));
                        ("statusCode", jOptNum (statusCodeOf error));
                        ("url", JStr u)])) ;;;
         throw (Error (failureMessage P error))).

(** [config.baseUrl || DEFAULT_BASE_URL] *)
Definition baseUrlOf (config : ArxivConfig) : string :=
  match axc_baseUrl config with
  | Some (String c b) => String c b
  | _ => DEFAULT_BASE_URL
  end.

(** [createArxivProvider]: no mandatory configuration. *)
Definition createArxivProvider (P : Platform) (config : ArxivConfig) : SearchProvider :=
  let baseUrl := baseUrlOf config in
  {| name := "arxiv";
     config := CfgArxiv {| axc_apiKey := JsString.orElse (axc_apiKey config) (Some "");
                           axc_baseUrl := axc_baseUrl config;
                           axc_sortBy := axc_sortBy config;
                           axc_sortOrder := axc_sortOrder config |};
     search := searchImpl P baseUrl |}.

(** The exported [arxiv] object. *)
Definition arxiv : SearchProvider :=
  {| name := "arxiv";
     config := CfgApiKey "";
     search := fun _options =>
       throw (Error "Arxiv provider must be configured before use. Call arxiv.configure() first, even with empty options if defaults are fine.") |}.

(** [arxiv.configure] *)
Definition configure (P : Platform) (config : ArxivConfig) : SearchProvider :=
  createArxivProvider P config.

End Arxiv.

(* ================================================================== *)
(** ** index.ts *)

Module Engine.

(** [getTroubleshootingInfo]; [message] is [error.message] of the [Error]
    it is handed. *)
Definition getTroubleshootingInfo (providerName message : string)
           (statusCode : option Z) : string :=
  let statusIs (c : Z) := match statusCode with Some s => (s =? c)%Z | None => false end in
  let has := JsString.includes message in
  let byStatus :=
    match statusCode with
    | Some s =>
        if (s =? 0)%Z then ""
        else if (s =? 401)%Z || (s =? 403)%Z then
          "This is likely an authentication issue. Check your API key and make sure it's valid and has the correct permissions."
        else if (s =? 400)%Z then
          "This is likely due to invalid request parameters. Check your query and other search options."
        else if (s =? 429)%Z then
          "You've exceeded the rate limit for this API. Try again later or reduce your request frequency."
        else if (s >=? 500)%Z then
          "The search provider is experiencing server issues. Try again later."
        else ""
    | None => ""
    end in
  let suggestions :=
    if has "[object Object]" then
      byStatus ++ nl ++ nl
      ++ "The error response contains complex data that wasn't properly formatted. "
      ++ "Try enabling debug mode to see the full response details: { debug: { enabled: true, logResponses: true } }"
    else byStatus in
  if String.eqb providerName "google" then
    if has "API key" then
      "Make sure your Google API key is valid and has the Custom Search API enabled. Also check if your Search Engine ID (cx) is correct."
    else if has "quota" then
      "You've exceeded your Google Custom Search API quota. Check your Google Cloud Console for quota information."
    else suggestions
  else if String.eqb providerName "serpapi" then
    if has "apiKey" then
      "Check that your SerpAPI key is valid. Verify that you have enough credits remaining in your SerpAPI account."
    else suggestions
  else if String.eqb providerName "brave" then
    if has "token" then
      "Ensure your Brave Search API token is valid. Check your subscription status in the Brave Developer Hub."
    else suggestions
  else if String.eqb providerName "searxng" then
    if has "not found" || statusIs 404%Z then
      "Check if your SearXNG instance URL is correct and that the server is running. Verify the format of your search URL."
    else suggestions
  else if String.eqb providerName "duckduckgo" then
    if has "vqd" then
      "Failed to extract the vqd parameter from DuckDuckGo. This may be due to temporary API changes or rate limiting. Try again later or consider using a different search type."
    else if statusIs 429%Z || has "rate" then
      "You may be making too many requests to DuckDuckGo. Try adding a delay between requests or reduce your request frequency."
    else suggestions
  else if String.eqb providerName "perplexity" then
    if has "api_key" || has "apiKey" then
      "Check your Perplexity API key. Make sure it's valid and has the correct permissions for the Search API."
    else if statusIs 429%Z then
      "You have exceeded your Perplexity API quota or rate limits. Check your usage in your Perplexity account dashboard."
    else if statusIs 400%Z then
      "Check your search parameters for the Perplexity API. Ensure max_results is between 1-20, and date formats are correct (MM/DD/YYYY)."
    else suggestions
  else
    if negb (JsString.truthy (Some suggestions)) then
      "Check your " ++ providerName ++ " API credentials and make sure your search request is valid."
    else suggestions.

(** The object each callback of [provider.map] returns. *)
Record ProviderOutcome : Type := {
  o_provider : string;
  o_results : list SearchResult;
  o_error : option Thrown          (* [null] or the detailed [Error] *)
}.

(** [detailedErrorMessage] *)
Definition detailedErrorMessage (p : SearchProvider) (error : Thrown) : string :=
  let errorMessage := messageOf error in
  let troubleshooting :=
    getTroubleshootingInfo (name p) (messageOf error) (statusCodeOf error) in
  "Search with provider '" ++ name p ++ "' failed: " ++ errorMessage ++
  (if JsString.truthy (Some troubleshooting) && negb (JsString.blank troubleshooting)
   then nl ++ nl ++ "Troubleshooting: " ++ troubleshooting
   else "").

(** The object the callback returns for an adapter whose search has settled
    as [c]. *)
Definition settle (p : SearchProvider) (c : Completion (list SearchResult))
  : ProviderOutcome :=
  match c with
  | Normal results => {| o_provider := name p; o_results := results; o_error := None |}
  | Throw error =>
      {| o_provider := name p;
         o_results := [];
         o_error := Some (Error (detailedErrorMessage p error)) |}
  end.

(** The callback of [provider.map]: one adapter's search, settled. *)
Definition searchOne (options : SearchOptions) (p : SearchProvider) : M ProviderOutcome :=
  let debugOptions := debug options in
  tryCatch
    (emit (EvSearch (name p)) ;;;
     results <- search p options ;;
     Debug.logResponse debugOptions
       ("Received " ++ JsString.ofNat (List.length results) ++ " results from " ++ name p)
       None ;;;
     ret {| o_provider := name p; o_results := results; o_error := None |})
    (fun error =>
       let troubleshooting :=
         getTroubleshootingInfo (name p) (messageOf error) (statusCodeOf error) in
       Debug.log debugOptions ("Search error with provider " ++ name p)
         (Some (JObj [("error", JStr (messageOf error));
                      ("statusCode", jOptNum (statusCodeOf error));
                      ("troubleshooting", JStr troubleshooting);
                      ("provider", JStr (name p));
                      ("query", jOptStr (query options));
                      ("rawError",
                       match error with
                       | HttpError _ _ (Some body) => body
                       | _ => JUndefined
                       end)])) ;;;
       ret {| o_provider := name p;
              o_results := [];
              o_error := Some (Error (detailedErrorMessage p error)) |}).

(** The [for ... of searchResults] loop over [allResults] and [errors]. *)
Fixpoint collect (debugOptions : option Debug.DebugOptions)
         (searchResults : list ProviderOutcome)
         (allResults : list SearchResult) (errors : list string)
  : M (list SearchResult * list string) :=
  match searchResults with
  | [] => ret (allResults, errors)
  | o :: rest =>
      match o_error o with
      | Some error =>
          Debug.log debugOptions ("Provider " ++ o_provider o ++ " failed")
            (Some (JObj [("error", JStr (messageOf error))])) ;;;
          collect debugOptions rest allResults (errors ++ [messageOf error])%list
      | None =>
          collect debugOptions rest (allResults ++ o_results o)%list errors
      end
  end.

(** What the loop adds to [allResults] and to [errors] for one outcome. *)
Definition resultsOf (o : ProviderOutcome) : list SearchResult :=
  match o_error o with Some _ => [] | None => o_results o end.

Definition errorsOf (o : ProviderOutcome) : list string :=
  match o_error o with Some error => [messageOf error] | None => [] end.

(** [!options.query && !(hasArxivProvider && options.idList)] *)
Definition missingQuery (providers : list SearchProvider) (options : SearchOptions) : bool :=
  negb (JsString.truthy (query options))
  && negb (existsb (fun p => String.eqb (name p) "arxiv") providers
           && JsString.truthy (idList options)).

(** The message of the error thrown when nothing was collected. *)
Definition allFailedMessage (n : nat) (errors : list string) : string :=
  "All " ++ JsString.ofNat n ++ " provider(s) failed:" ++ nl ++ nl
  ++ JsString.join (nl ++ nl) errors.

Definition succeeded (searchResults : list ProviderOutcome) : nat :=
  List.length (filter (fun r => negb (isSome (o_error r))) searchResults).

(** [webSearch]; [providers] is [options.provider] and [options] the rest. *)
Definition webSearch (providers : list SearchProvider) (options : SearchOptions)
  : M (list SearchResult) :=
  let debugOptions := debug options in
  if (List.length providers =? 0)%nat
  then throw (Error "At least one search provider is required")
  else
    if missingQuery providers options
    then throw (Error "A search query or ID list (for Arxiv) is required")
    else
      Debug.log debugOptions
        ("Performing search with " ++ JsString.ofNat (List.length providers)
         ++ " provider(s): " ++ JsString.join ", " (map name providers))
        (Some (JObj [("query", jOptStr (query options));
                     ("maxResults", jOptNum (maxResults options));
                     ("providers", jStrs (map name providers))])) ;;;
      searchResults <- mapM (searchOne options) providers ;;
      acc <- collect debugOptions searchResults [] [] ;;
      let allResults := fst acc in
      let errors := snd acc in
      Debug.log debugOptions
        ("Search complete: " ++ JsString.ofNat (List.length allResults)
         ++ " total results from " ++ JsString.ofNat (succeeded searchResults)
         ++ "/" ++ JsString.ofNat (List.length providers) ++ " providers")
        (Some (JObj [("totalResults", JNum (Z.of_nat (List.length allResults)));
                     ("successfulProviders", JNum (Z.of_nat (succeeded searchResults)));
                     ("failedProviders", JNum (Z.of_nat (List.length errors)))])) ;;;
      if (List.length allResults =? 0)%nat && (0 <? List.length errors)%nat
      then throw (Error (allFailedMessage (List.length providers) errors))
      else ret allResults.

End Engine.

(* ================================================================== *)
(** ** The adapters of the repository, seen together *)

Module Adapters.

(** One backend per provider module, with the configuration given to its
    [configure]. *)
Inductive Backend : Type :=
| BPerplexity (c : PerplexityConfig)
| BParallel (c : ParallelConfig)
| BArxiv (c : ArxivConfig).

(** [<provider>.configure(config)] *)
Definition configure (P : Platform) (b : Backend) : Completion SearchProvider :=
  match b with
  | BPerplexity c => Perplexity.configure P c
  | BParallel c => Parallel.configure P c
  | BArxiv c => Normal (Arxiv.configure P c)
  end.

(** The module-level objects [perplexity], [parallel] and [arxiv]. *)
Definition singletons : list SearchProvider :=
  [Perplexity.perplexity; Parallel.parallel; Arxiv.arxiv].

(** The adapter's own check of the query, passed before any request. *)
Definition accepts (b : Backend) (options : SearchOptions) : bool :=
  match b with
  | BPerplexity _ => JsString.truthy (query options)
  | BParallel _ => negb (Parallel.missingQuery (query options))
  | BArxiv _ => negb (Arxiv.missingQuery options)
  end.

Definition nativeResults (parsed : option ArxivParsedXml) : list ArxivAtomEntry :=
  match parsed with
  | Some {| ax_feed := Some feed |} => Arxiv.entriesOf feed
  | _ => []
  end.

(** The URL fields of the native result list in the reply to the request
    the adapter issues for [options]; an absent list counts as empty.
    [Throw] when the transport (or the XML parser) throws or no request can
    be formed. *)
Definition nativeUrls (P : Platform) (b : Backend) (options : SearchOptions)
  : Completion (list string) :=
  match b with
  | BPerplexity c =>
      match pxc_apiKey c, query options with
      | Some k, Some q =>
          match Perplexity.reply P k (Perplexity.baseUrlOf c)
                  (Perplexity.requestBody c options q) options with
          | Normal resp =>
              Normal (map px_url (match px_results resp with Some l => l | None => [] end))
          | Throw e => Throw e
          end
      | _, _ => Throw (Error "no request")
      end
  | BParallel c =>
      match plc_apiKey c, query options with
      | Some k, Some q =>
          match Parallel.reply P k (Parallel.baseUrlOf c)
                  (Parallel.requestBody c options q) options with
          | Normal resp =>
              Normal (map pl_url (match pl_results resp with Some l => l | None => [] end))
          | Throw e => Throw e
          end
      | _, _ => Throw (Error "no request")
      end
  | BArxiv c =>
      match getText P (Arxiv.requestUrl P (Arxiv.baseUrlOf c) options) (timeout options) with
      | Normal text =>
          match xmlParse P text with
          | Normal parsed => Normal (map Arxiv.urlOf (nativeResults parsed))
          | Throw e => Throw e
          end
      | Throw e => Throw e
      end
  end.

(** A handle obtained from one of the repository's factories. *)
Definition Shipped (P : Platform) (p : SearchProvider) : Prop :=
  exists b, configure P b = Normal p.

(** The adapter labels every result it resolves with, with its own name. *)
Definition selfLabelled (options : SearchOptions) (p : SearchProvider) : Prop :=
  forall rs, outcome (search p options) = Normal rs ->
             Forall (fun r => provider r = name p) rs.

(** [url] and [title] of a canonical result against the native record kept
    in its [raw]: the url is the native one; the title is the native one,
    which the parallel adapter replaces by its placeholder when it is
    missing or empty and the perplexity adapter copies as it is. *)
Definition urlAndTitleFromRaw (r : SearchResult) : Prop :=
  match raw r with
  | Some (RawPerplexity n) => url r = px_url n /\ title r = px_title n
  | Some (RawParallel n) =>
      url r = pl_url n /\
      match pl_title n with
      | Some t => title r = Some (if String.eqb t "" then "No title available" else t)
      | None => title r = Some "No title available"
      end
  | Some (RawArxiv e) =>
      url r = Arxiv.urlOf e /\ title r = Some (Arxiv.tidy (ax_title e))
  | _ => False
  end.

End Adapters.

(* ================================================================== *)
(** ** Concrete adapters, options and platforms used as test inputs *)

Module Samples.

Definition plainOptions (q : option string) : SearchOptions :=
  {| query := q; idList := None; maxResults := None; region := None;
     language := None; timeout := None; start := None; sortBy := None;
     sortOrder := None; debug := None |}.

Definition result (u t p : string) : SearchResult :=
  {| url := u; title := Some t; snippet := None; content := None; domain := None;
     publishedDate := None; provider := p; raw := None; authors := None;
     categories := None |}.

(** A caller-written adapter whose search settles the same way every time. *)
Definition fixedAdapter (n : string) (c : Completion (list SearchResult)) : SearchProvider :=
  {| name := n; config := CfgApiKey "key"; search := fun _ => ([], c) |}.

Definition good : SearchResult := result "https://good.com" "Good" "A".

Definition adapterA : SearchProvider := fixedAdapter "A" (Normal [good]).
Definition adapterEmpty : SearchProvider := fixedAdapter "A" (Normal []).
Definition adapterBoom : SearchProvider := fixedAdapter "B" (Throw (Error "boom")).
Definition adapter429 : SearchProvider :=
  fixedAdapter "C" (Throw (HttpError 429 "slow down" None)).

(** An adapter that labels its results with another provider's name. *)
Definition adapterMislabelled : SearchProvider :=
  fixedAdapter "A" (Normal [result "https://good.com" "Good" "B"]).

(** A logger that always throws. *)
Definition throwingLogger : Debug.Logger :=
  fun _ _ => Throw (Error "logger failure").

Definition debugAll (f : Debug.Logger) : Debug.DebugOptions :=
  {| Debug.enabled := Some true; Debug.logRequests := Some true;
     Debug.logResponses := Some true; Debug.logger := Some f |}.

Definition noisyOptions (q : option string) : SearchOptions :=
  {| query := q; idList := None; maxResults := None; region := None;
     language := None; timeout := None; start := None; sortBy := None;
     sortOrder := None; debug := Some (debugAll throwingLogger) |}.

(** A [URL] constructor that accepts exactly the strings starting with
    [https://] and reports what follows as the host. *)
Definition httpsHost (u : string) : option string :=
  if String.prefix "https://" u
  then Some (String.substring 8 (String.length u - 8) u)
  else None.

Definition pxGood : PerplexitySearchResult :=
  {| px_title := Some "Test"; px_url := "https://example.com"; px_snippet := "content";
     px_date := "2024-01-01"; px_last_updated := "" |}.
Definition pxBadUrl : PerplexitySearchResult :=
  {| px_title := Some "Test"; px_url := "not-a-url"; px_snippet := "content";
     px_date := ""; px_last_updated := "" |}.
Definition pxUntitled : PerplexitySearchResult :=
  {| px_title := None; px_url := "https://example.com/untitled";
     px_snippet := "content"; px_date := "2024-01-01"; px_last_updated := "" |}.

Definition plUntitled : ParallelWebSearchResult :=
  {| pl_url := "https://another.com"; pl_title := None; pl_publish_date := None;
     pl_excerpts := Some [] |}.
Definition plBadUrl : ParallelWebSearchResult :=
  {| pl_url := "not-a-url"; pl_title := Some "Parallel Result";
     pl_publish_date := Some "2024-01-01";
     pl_excerpts := Some ["First excerpt content"; "Second excerpt content"] |}.

Definition entry : ArxivAtomEntry :=
  {| ax_id := "http://arxiv.org/abs/2305.00001v1"; ax_updated := "2023-05-01T00:00:00Z";
     ax_published := "2023-05-01T00:00:00Z"; ax_title := "Test Paper Title";
     ax_summary := "Abstract of the test paper"; ax_author := Some ["John Doe"];
     ax_link := Some [{| ln_href := "http://arxiv.org/abs/2305.00001v1";
                         ln_rel := "alternate"; ln_type := Some "text/html";
                         ln_title := None |}];
     ax_category := None |}.

(** A platform whose transport answers every request with the given bodies. *)
Definition platform (px : Completion PerplexitySearchResponse)
           (pl : Completion ParallelSearchResponse)
           (ax : Completion (option ArxivParsedXml)) : Platform :=
  {| newURL_hostname := httpsHost;
     postPerplexity := fun _ _ _ _ => px;
     postParallel := fun _ _ _ _ => pl;
     getText := fun _ _ => Normal "<feed/>";
     xmlParse := fun _ => ax;
     urlSearchParams := fun ps =>
       JsString.join "&" (map (fun kv => fst kv ++ "=" ++ snd kv) ps);
     jsonStringify := fun _ => "{}" |}.

Definition pxResponse (l : option (list PerplexitySearchResult))
  : Completion PerplexitySearchResponse := Normal {| px_results := l |}.
Definition plResponse (l : option (list ParallelWebSearchResult))
  : Completion ParallelSearchResponse :=
  Normal {| pl_search_id := Some "search-123"; pl_results := l;
            pl_warnings := None; pl_usage := None |}.
Definition axResponse (l : option (list ArxivAtomEntry))
  : Completion (option ArxivParsedXml) :=
  Normal (Some {| ax_feed := Some {| ax_entry := l; ax_totalResults := "0" |} |}).

Definition emptyPlatform : Platform :=
  platform (pxResponse None) (plResponse (Some [])) (axResponse None).

Definition mixedPlatform : Platform :=
  platform (pxResponse (Some [pxBadUrl; pxGood]))
           (plResponse (Some [plBadUrl; plUntitled]))
           (axResponse (Some [entry])).

Definition pxConfig : PerplexityConfig :=
  {| pxc_apiKey := Some "test-key"; pxc_baseUrl := None; pxc_maxTokens := None;
     pxc_maxTokensPerPage := None; pxc_country := None;
     pxc_searchDomainFilter := None; pxc_searchRecencyFilter := None;
     pxc_searchAfterDate := None; pxc_searchBeforeDate := None;
     pxc_searchLanguageFilter := None |}.

Definition plConfig : ParallelConfig :=
  {| plc_apiKey := Some "test-key"; plc_baseUrl := None; plc_mode := None;
     plc_maxResults := None; plc_includeDomains := None; plc_excludeDomains := None;
     plc_afterDate := None; plc_beforeDate := None; plc_maxCharsPerResult := None;
     plc_excerptCount := None; plc_fetchStrategy := None |}.

Definition axConfig : ArxivConfig :=
  {| axc_apiKey := None; axc_baseUrl := None; axc_sortBy := None; axc_sortOrder := None |}.

(** A platform whose perplexity reply holds one record without a title. *)
Definition untitledPlatform : Platform :=
  platform (pxResponse (Some [pxUntitled])) (plResponse None) (axResponse None).

Definition pxUntitledHandle : SearchProvider :=
  match Perplexity.configure untitledPlatform pxConfig with
  | Normal p => p
  | Throw _ => Perplexity.perplexity
  end.

(** Handles obtained from the factories over [mixedPlatform]. *)
Definition pxHandle : SearchProvider :=
  match Perplexity.configure mixedPlatform pxConfig with
  | Normal p => p
  | Throw _ => Perplexity.perplexity
  end.

Definition plHandle : SearchProvider :=
  match Parallel.configure mixedPlatform plConfig with
  | Normal p => p
  | Throw _ => Parallel.parallel
  end.

Definition axHandle : SearchProvider := Arxiv.configure mixedPlatform axConfig.

End Samples.

(* ================================================================== *)
(** ** mcp/index.ts and mcp/cli.ts *)

Module Mcp.

(** interface McpProcessConfig *)
Record McpProcessConfig : Type := {
  command : string;
  args : list string;
  env : list (string * string)
}.

(** One element of [serializableConfig.providers]: [{ name, config }]. *)
Record ProviderEntry : Type := {
  e_name : string;
  e_config : JsData
}.

(** A handle's [config] as [JSON.stringify] keeps it: the properties that
    are set, in declaration order. *)
Definition configJson (c : ProviderConfig) : JsData :=
  match c with
  | CfgPerplexity c =>
      JObj (optField "apiKey" (option_map JStr (pxc_apiKey c))
            ++ optField "baseUrl" (option_map JStr (pxc_baseUrl c))
            ++ optField "maxTokens" (option_map JNum (pxc_maxTokens c))
            ++ optField "maxTokensPerPage" (option_map JNum (pxc_maxTokensPerPage c))
            ++ optField "country" (option_map JStr (pxc_country c))
            ++ optField "searchDomainFilter" (option_map jStrs (pxc_searchDomainFilter c))
            ++ optField "searchRecencyFilter" (option_map JStr (pxc_searchRecencyFilter c))
            ++ optField "searchAfterDate" (option_map JStr (pxc_searchAfterDate c))
            ++ optField "searchBeforeDate" (option_map JStr (pxc_searchBeforeDate c))
            ++ optField "searchLanguageFilter"
                 (option_map jStrs (pxc_searchLanguageFilter c)))%list
  | CfgParallel c =>
      JObj (optField "apiKey" (option_map JStr (plc_apiKey c))
            ++ optField "baseUrl" (option_map JStr (plc_baseUrl c))
            ++ optField "mode" (option_map JStr (plc_mode c))
            ++ optField "maxResults" (option_map JNum (plc_maxResults c))
            ++ optField "includeDomains" (option_map jStrs (plc_includeDomains c))
            ++ optField "excludeDomains" (option_map jStrs (plc_excludeDomains c))
            ++ optField "afterDate" (option_map JStr (plc_afterDate c))
            ++ optField "beforeDate" (option_map JStr (plc_beforeDate c))
            ++ optField "maxCharsPerResult" (option_map JNum (plc_maxCharsPerResult c))
            ++ optField "excerptCount" (option_map JNum (plc_excerptCount c))
            ++ optField "fetchStrategy" (option_map JStr (plc_fetchStrategy c)))%list
  | CfgArxiv c =>
      JObj (optField "apiKey" (option_map JStr (axc_apiKey c))
            ++ optField "baseUrl" (option_map JStr (axc_baseUrl c))
            ++ optField "sortBy" (option_map JStr (axc_sortBy c))
            ++ optField "sortOrder" (option_map JStr (axc_sortOrder c)))%list
  | CfgApiKey k => JObj [("apiKey", JStr k)]
  end.

(** [providers.map((p) => ({ name: p.name, config: p.config }))] *)
Definition serializableConfig (providers : list SearchProvider) : list ProviderEntry :=
  map (fun p => {| e_name := name p; e_config := configJson (config p) |}) providers.

(** The document [{ providers: [...] }] handed to [JSON.stringify]. *)
Definition documentJson (entries : list ProviderEntry) : JsData :=
  JObj [("providers",
         JArr (map (fun e => JObj [("name", JStr (e_name e)); ("config", e_config e)])
                   entries))].

(** [asMcp]; [cliPath] is [path.join(__dirname, 'cli.js')]. *)
Definition asMcp (P : Platform) (cliPath : string) (providers : list SearchProvider)
  : Completion McpProcessConfig :=
  match providers with
  | [] => Throw (Error "asMcp requires at least one configured search provider.")
  | _ :: _ =>
      Normal {| command := "node";
                args := [cliPath];
                env := [("SEARCH_SDK_MCP_CONFIG",
                         jsonStringify P (documentJson (serializableConfig providers)))] |}
  end.

(** The own keys of [providerFactory] whose factories are outside [src]. *)
Definition otherFactoryKeys : list string :=
  ["google"; "serpapi"; "brave"; "exa"; "tavily"; "searxng"; "duckduckgo"].

(** Names that [providerFactory[name]] finds on [Object.prototype]. *)
Definition inheritedKeys : list string :=
  ["constructor"; "toString"; "toLocaleString"; "valueOf"; "hasOwnProperty";
   "isPrototypeOf"; "propertyIsEnumerable"; "__proto__"; "__defineGetter__";
   "__defineSetter__"; "__lookupGetter__"; "__lookupSetter__"].

Definition member (x : string) (l : list string) : bool :=
  existsb (String.eqb x) l.

(** A string property of a parsed configuration object. *)
Fixpoint lookup (k : string) (fields : list (string * JsData)) : option JsData :=
  match fields with
  | [] => None
  | (k', v) :: rest => if String.eqb k k' then Some v else lookup k rest
  end.

Definition stringField (k : string) (d : JsData) : option string :=
  match d with
  | JObj fields => match lookup k fields with Some (JStr s) => Some s | _ => None end
  | _ => None
  end.

(** The parsed [config] read as an [ArxivConfig]. *)
Definition arxivConfigOf (d : JsData) : ArxivConfig :=
  {| axc_apiKey := stringField "apiKey" d;
     axc_baseUrl := stringField "baseUrl" d;
     axc_sortBy := stringField "sortBy" d;
     axc_sortOrder := stringField "sortOrder" d |}.

(** [providerFactory[name]]: [None] when the lookup is [undefined].  [others]
    stands for what the lookup finds outside [src]: the seven other factories
    and the inherited properties. *)
Definition providerFactory (P : Platform)
           (others : string -> JsData -> Completion SearchProvider) (n : string)
  : option (JsData -> Completion SearchProvider) :=
  if String.eqb n "arxiv"
  then Some (fun c => Normal (Arxiv.createArxivProvider P (arxivConfigOf c)))
  else if member n otherFactoryKeys || member n inheritedKeys
       then Some (others n)
       else None.

(** [xs.map(f)] for a callback that may throw and has no other effect. *)
Fixpoint mapC {A B} (f : A -> Completion B) (xs : list A) : Completion (list B) :=
  match xs with
  | [] => Normal []
  | x :: rest =>
      match f x with
      | Normal y => match mapC f rest with
                    | Normal ys => Normal (y :: ys)
                    | Throw e => Throw e
                    end
      | Throw e => Throw e
      end
  end.

(** The hydration step of [main]: from the parsed [providers] property to
    the handles, or the error [main] reports before exiting. *)
Definition hydrate (P : Platform)
           (others : string -> JsData -> Completion SearchProvider)
           (providerConfigs : option (list ProviderEntry))
  : Completion (list SearchProvider) :=
  match providerConfigs with
  | Some (e :: es) =>
      mapC (fun p =>
              match providerFactory P others (e_name p) with
              | Some create => create (e_config p)
              | None => Throw (Error ("Unknown provider specified in config: " ++ e_name p))
              end) (e :: es)
  | _ => Throw (Error ("The " ++ dq ++ "providers" ++ dq
                       ++ " array in your configuration is empty."))
  end.

End Mcp.

(* ================================================================== *)
(** ** Reading a trace *)

Module Observed.

Definition isLogging (ev : Event) : bool :=
  match ev with EvLogger _ _ | EvConsole _ _ => true | _ => false end.

Definition isHttp (ev : Event) : bool :=
  match ev with EvHttp _ _ => true | _ => false end.

Definition isSearch (ev : Event) : bool :=
  match ev with EvSearch _ => true | _ => false end.

(** The transport requests, the adapter invocations and the log calls of a
    computation, in the order they happened. *)
Definition httpCalls {A} (m : M A) : list Event := filter isHttp (trace m).
Definition searchCalls {A} (m : M A) : list Event := filter isSearch (trace m).
Definition logCalls {A} (m : M A) : list Event := filter isLogging (trace m).

(** An observer that does not look at log calls. *)
Definition ignoresLogging (f : Event -> bool) : Prop :=
  forall ev, isLogging ev = true -> f ev = false.

(** The request a configured handle issues for [options]. *)
Definition requestOf (P : Platform) (b : Adapters.Backend) (options : SearchOptions) : Event :=
  match b with
  | Adapters.BPerplexity c => EvHttp "POST" (Perplexity.baseUrlOf c)
  | Adapters.BParallel c => EvHttp "POST" (Parallel.baseUrlOf c)
  | Adapters.BArxiv c => EvHttp "GET" (Arxiv.requestUrl P (Arxiv.baseUrlOf c) options)
  end.

(** The error a handle rejects with when its own check refuses the query. *)
Definition refusal (b : Adapters.Backend) : string :=
  match b with
  | Adapters.BPerplexity _ => "Perplexity search requires a query."
  | Adapters.BParallel _ => "Parallel search requires a query."
  | Adapters.BArxiv _ =>
      "Arxiv search requires either a " ++ dq ++ "query" ++ dq
      ++ " or an " ++ dq ++ "idList" ++ dq ++ "."
  end.

(** How the message of the error a handle rejects with begins when the
    transport (for arxiv, also the XML parser) has thrown [e]. *)
Definition failureHead (b : Adapters.Backend) (e : Thrown) : string :=
  match b, e with
  | Adapters.BPerplexity _, _ => "Perplexity search failed: " ++ messageOf e
  | Adapters.BParallel _, _ => "Parallel search failed: " ++ messageOf e
  | Adapters.BArxiv _, HttpError statusCode message _ =>
      "Arxiv API error: " ++ JsString.ofZ statusCode ++ " - " ++ message
  | Adapters.BArxiv _, _ => "Arxiv search failed: " ++ messageOf e
  end.


(** The [case] labels of the [switch] in [getTroubleshootingInfo]. *)
Definition switchCases : list string :=
  ["google"; "serpapi"; "brave"; "searxng"; "duckduckgo"; "perplexity"].

(** The words the [case] of a listed provider looks for in the message. *)
Definition keywords (providerName : string) : list string :=
  if String.eqb providerName "google" then ["API key"; "quota"]
  else if String.eqb providerName "serpapi" then ["apiKey"]
  else if String.eqb providerName "brave" then ["token"]
  else if String.eqb providerName "searxng" then ["not found"]
  else if String.eqb providerName "duckduckgo" then ["vqd"; "rate"]
  else if String.eqb providerName "perplexity" then ["api_key"; "apiKey"]
  else [].

(** The reply of the transport to the request a configured handle issues
    (for arxiv, after the XML parser), as settled or thrown. *)
Definition transportFailure (P : Platform) (b : Adapters.Backend) (options : SearchOptions)
  : option Thrown :=
  match Adapters.nativeUrls P b options with
  | Normal _ => None
  | Throw e => Some e
  end.

End Observed.

(* ================================================================== *)
(** ** Further test inputs *)

Module MoreSamples.

(** A logger that returns. *)
Definition quietLogger : Debug.Logger := fun _ _ => Normal tt.

Definition arxivOptions : SearchOptions :=
  {| query := None; idList := Some "2305.00001"; maxResults := None; region := None;
     language := None; timeout := None; start := None; sortBy := None;
     sortOrder := None; debug := None |}.

(** A platform whose transport fails every request with a 401. *)
Definition failingPlatform : Platform :=
  Samples.platform (Throw (HttpError 401 "Unauthorized" None))
                   (Throw (HttpError 401 "Unauthorized" None))
                   (Throw (Error "XML parse error")).

Definition plExcerpted : ParallelWebSearchResult := Samples.plBadUrl.

Definition sortedConfig : ArxivConfig :=
  {| axc_apiKey := None; axc_baseUrl := None; axc_sortBy := Some "submittedDate";
     axc_sortOrder := Some "ascending" |}.

Definition noOthers : string -> JsData -> Completion SearchProvider :=
  fun n _ => Throw (Error ("no factory for " ++ n)).

End MoreSamples.

(* ================================================================== *)
(** * Properties *)

(** ** Computations *)

Section Computations.

Context {A B : Type}.

Lemma outcome_bind (m : M A) (f : A -> M B) :
  outcome (bind m f) =
  match outcome m with
  | Normal a => outcome (f a)
  | Throw e => Throw e
  end.
Proof.
  destruct m as [t [a | e]]; simpl; [destruct (f a); reflexivity | reflexivity].
Qed.

Lemma outcome_seq (m : M A) (f : A -> M B) (a : A) :
  outcome m = Normal a -> outcome (bind m f) = outcome (f a).
Proof. intros H; rewrite outcome_bind, H; reflexivity. Qed.

Lemma trace_bind (m : M A) (f : A -> M B) :
  trace (bind m f) =
  match outcome m with
  | Normal a => (trace m ++ trace (f a))%list
  | Throw _ => trace m
  end.
Proof.
  destruct m as [t [a | e]]; simpl; [destruct (f a); reflexivity | reflexivity].
Qed.

Lemma outcome_tryCatch (m : M A) (h : Thrown -> M A) :
  outcome (tryCatch m h) =
  match outcome m with
  | Normal a => Normal a
  | Throw e => outcome (h e)
  end.
Proof.
  destruct m as [t [a | e]]; simpl; [reflexivity | destruct (h e); reflexivity].
Qed.

Lemma trace_tryCatch (m : M A) (h : Thrown -> M A) :
  trace (tryCatch m h) =
  match outcome m with
  | Normal _ => trace m
  | Throw e => (trace m ++ trace (h e))%list
  end.
Proof.
  destruct m as [t [a | e]]; simpl; [reflexivity | destruct (h e); reflexivity].
Qed.

End Computations.

(** A callback that never throws maps the whole list. *)
Lemma outcome_mapM {A B} (f : A -> M B) (g : A -> B) (xs : list A) :
  (forall x, In x xs -> outcome (f x) = Normal (g x)) ->
  outcome (mapM f xs) = Normal (map g xs).
Proof.
  induction xs as [| x rest IH]; intros H; [reflexivity |].
  cbn [mapM map].
  rewrite outcome_bind, (H x (or_introl eq_refl)).
  rewrite outcome_bind, IH by (intros y Hy; apply H; right; exact Hy).
  reflexivity.
Qed.

(** ** The debug hook never throws *)

Lemma callLogger_caught options message data :
  outcome (tryCatch (Debug.callLogger options message data) (fun _ => ret tt)) = Normal tt.
Proof.
  rewrite outcome_tryCatch. unfold Debug.callLogger.
  destruct (Debug.loggerOf options) as [f |].
  - rewrite outcome_bind; simpl. destruct (f message data) as [[] | e]; reflexivity.
  - unfold Debug.defaultLogger.
    destruct data as [d |]; [destruct (jsTruthy d) |]; reflexivity.
Qed.

Lemma log_outcome options message data :
  outcome (Debug.log options message data) = Normal tt.
Proof.
  unfold Debug.log. destruct (Debug.flag Debug.enabled options);
    [apply callLogger_caught | reflexivity].
Qed.

Lemma logRequest_outcome options message data :
  outcome (Debug.logRequest options message data) = Normal tt.
Proof.
  unfold Debug.logRequest.
  destruct (Debug.flag Debug.enabled options && Debug.flag Debug.logRequests options);
    [apply callLogger_caught | reflexivity].
Qed.

Lemma logResponse_outcome options message data :
  outcome (Debug.logResponse options message data) = Normal tt.
Proof.
  unfold Debug.logResponse.
  destruct (Debug.flag Debug.enabled options && Debug.flag Debug.logResponses options);
    [apply callLogger_caught | reflexivity].
Qed.

(** C10.  For every debug options value, message and data argument,
    [debug.log], [debug.logRequest] and [debug.logResponse] complete normally:
    whatever the caller-supplied logger does, including throwing, none of the
    three throws. *)
Theorem debug_never_throws (options : option Debug.DebugOptions) (message : string)
        (data : option JsData) :
  outcome (Debug.log options message data) = Normal tt /\
  outcome (Debug.logRequest options message data) = Normal tt /\
  outcome (Debug.logResponse options message data) = Normal tt.
Proof.
  repeat split;
    [apply log_outcome | apply logRequest_outcome | apply logResponse_outcome].
Qed.

(** ** Strings *)

Lemma append_assoc (a b c : string) : (a ++ b) ++ c = a ++ (b ++ c).
Proof. induction a as [| x a IH]; simpl; [reflexivity | rewrite IH; reflexivity]. Qed.

Lemma prefix_append (t b : string) : String.prefix t (t ++ b) = true.
Proof.
  induction t as [| x t IH]; simpl.
  - destruct b; reflexivity.
  - destruct (ascii_dec x x) as [_ | N]; [exact IH | contradiction N; reflexivity].
Qed.

Lemma includes_unfold (s t : string) :
  JsString.includes s t =
  String.prefix t s ||
  match s with
  | EmptyString => false
  | String _ s' => JsString.includes s' t
  end.
Proof. destruct s; reflexivity. Qed.

(** [includes] finds every occurrence: a string contains whatever sits
    between any prefix and any suffix of it. *)
Lemma includes_append (a t b : string) : JsString.includes (a ++ t ++ b) t = true.
Proof.
  induction a as [| x a IH].
  - change ("" ++ t ++ b) with (t ++ b).
    rewrite includes_unfold, prefix_append. reflexivity.
  - change (String x a ++ t ++ b) with (String x (a ++ t ++ b)).
    rewrite includes_unfold, IH. apply orb_true_r.
Qed.

Lemma includes_here (t b : string) : JsString.includes (t ++ b) t = true.
Proof. exact (includes_append "" t b). Qed.

Lemma join_In (sep e : string) (l : list string) :
  In e l -> exists a b, JsString.join sep l = a ++ e ++ b.
Proof.
  induction l as [| x rest IH]; intros H; [contradiction |].
  destruct H as [-> | H].
  - destruct rest as [| y rest'].
    + exists "", "". simpl. clear. induction e; simpl; congruence.
    + exists "", (sep ++ JsString.join sep (y :: rest')). reflexivity.
  - destruct rest as [| y rest']; [contradiction |].
    destruct (IH H) as (a & b & E).
    exists (x ++ sep ++ a), b.
    change (JsString.join sep (x :: y :: rest'))
      with (x ++ sep ++ JsString.join sep (y :: rest')).
    rewrite E, !append_assoc. reflexivity.
Qed.

(** ** The engine *)

Lemma searchOne_outcome options p :
  outcome (Engine.searchOne options p) =
  Normal (Engine.settle p (outcome (search p options))).
Proof.
  unfold Engine.searchOne. rewrite outcome_tryCatch, outcome_bind.
  cbn [emit outcome snd]. rewrite outcome_bind.
  destruct (outcome (search p options)) as [rs | e].
  - rewrite outcome_bind, logResponse_outcome. reflexivity.
  - rewrite outcome_bind, log_outcome. reflexivity.
Qed.

Lemma collect_outcome dbg srs all errs :
  outcome (Engine.collect dbg srs all errs) =
  Normal ((all ++ flat_map Engine.resultsOf srs)%list,
          (errs ++ flat_map Engine.errorsOf srs)%list).
Proof.
  revert all errs. induction srs as [| o rest IH]; intros all errs.
  - simpl. rewrite !app_nil_r. reflexivity.
  - cbn [Engine.collect flat_map]. unfold Engine.resultsOf at 1, Engine.errorsOf at 1.
    destruct (Engine.o_error o) as [e |].
    + rewrite outcome_bind, log_outcome, IH. simpl. rewrite <- app_assoc. reflexivity.
    + rewrite IH. simpl. rewrite <- app_assoc. reflexivity.
Qed.

(** The settled value of [webSearch] once both checks are passed. *)
Lemma webSearch_outcome providers options :
  providers <> [] ->
  Engine.missingQuery providers options = false ->
  outcome (Engine.webSearch providers options) =
  let srs := map (fun p => Engine.settle p (outcome (search p options))) providers in
  let allResults := flat_map Engine.resultsOf srs in
  let errors := flat_map Engine.errorsOf srs in
  if (List.length allResults =? 0)%nat && (0 <? List.length errors)%nat
  then Throw (Error (Engine.allFailedMessage (List.length providers) errors))
  else Normal allResults.
Proof.
  intros Hne Hq. unfold Engine.webSearch.
  destruct providers as [| p0 ps]; [contradiction Hne; reflexivity |].
  cbn [List.length Nat.eqb]. rewrite Hq.
  rewrite outcome_bind, log_outcome.
  rewrite outcome_bind.
  rewrite (outcome_mapM _ (fun p => Engine.settle p (outcome (search p options))))
    by (intros; apply searchOne_outcome).
  rewrite outcome_bind, collect_outcome.
  rewrite outcome_bind, log_outcome.
  cbn [fst snd app].
  match goal with |- context [if ?c then _ else _] => destruct c end; reflexivity.
Qed.

(** ** The adapters' settled values *)

Lemma extractDomain_outcome P u :
  outcome (extractDomain P u) = Normal (newURL_hostname P u).
Proof.
  unfold extractDomain, hostname. destruct (newURL_hostname P u); reflexivity.
Qed.

Lemma request_outcome {A} method u (reply : Completion A) :
  outcome (request method u reply) = reply.
Proof. destruct reply; reflexivity. Qed.

Lemma perplexity_toSearchResult_outcome P n :
  outcome (Perplexity.toSearchResult P n) =
  Normal (Perplexity.canonical (newURL_hostname P (px_url n)) n).
Proof.
  unfold Perplexity.toSearchResult. rewrite outcome_bind, extractDomain_outcome.
  reflexivity.
Qed.

Lemma parallel_toSearchResult_outcome P n :
  outcome (Parallel.toSearchResult P n) =
  Normal (Parallel.canonical (newURL_hostname P (pl_url n)) n).
Proof.
  unfold Parallel.toSearchResult. rewrite outcome_bind, extractDomain_outcome.
  reflexivity.
Qed.

(** What [search] of a configured perplexity handle settles to. *)
Lemma perplexity_search_outcome P config apiKey baseUrl options :
  outcome (Perplexity.searchImpl P config apiKey baseUrl options) =
  match query options with
  | Some (String c q') =>
      match Perplexity.reply P apiKey baseUrl
              (Perplexity.requestBody config options (String c q')) options with
      | Normal resp =>
          Normal (map (fun n => Perplexity.canonical (newURL_hostname P (px_url n)) n)
                      (match px_results resp with Some l => l | None => [] end))
      | Throw e => Throw (Error (Perplexity.failureMessage e))
      end
  | _ => Throw (Error "Perplexity search requires a query.")
  end.
Proof.
  unfold Perplexity.searchImpl.
  destruct (query options) as [[| c q'] |]; try reflexivity.
  rewrite outcome_bind, logRequest_outcome, outcome_tryCatch, outcome_bind, request_outcome.
  destruct (Perplexity.reply _ _ _ _ _) as [resp | e].
  - rewrite outcome_bind, logResponse_outcome.
    destruct (px_results resp) as [[| n rest] |].
    + rewrite outcome_bind, log_outcome. reflexivity.
    + rewrite (outcome_mapM _ (fun n => Perplexity.canonical (newURL_hostname P (px_url n)) n))
        by (intros; apply perplexity_toSearchResult_outcome).
      reflexivity.
    + rewrite outcome_bind, log_outcome. reflexivity.
  - rewrite outcome_bind, log_outcome. reflexivity.
Qed.

(** What [search] of a configured parallel handle settles to. *)
Lemma parallel_search_outcome P config apiKey baseUrl options :
  outcome (Parallel.searchImpl P config apiKey baseUrl options) =
  match query options with
  | Some q =>
      if Parallel.missingQuery (Some q)
      then Throw (Error "Parallel search requires a query.")
      else
        match Parallel.reply P apiKey baseUrl
                (Parallel.requestBody config options q) options with
        | Normal resp =>
            Normal (map (fun n => Parallel.canonical (newURL_hostname P (pl_url n)) n)
                        (match pl_results resp with Some l => l | None => [] end))
        | Throw e => Throw (Error (Parallel.failureMessage e))
        end
  | None => Throw (Error "Parallel search requires a query.")
  end.
Proof.
  unfold Parallel.searchImpl.
  destruct (query options) as [q |]; try reflexivity.
  destruct (Parallel.missingQuery (Some q)); [reflexivity |].
  rewrite outcome_bind, logRequest_outcome, outcome_tryCatch, outcome_bind, request_outcome.
  destruct (Parallel.reply _ _ _ _ _) as [resp | e].
  - rewrite outcome_bind, logResponse_outcome.
    rewrite outcome_bind.
    assert (W : outcome (if nonEmptyList (pl_warnings resp)
                         then Debug.log (debug options) "Parallel Search warnings"
                                (Some (JObj [("warnings",
                                  JArr (match pl_warnings resp with
                                        | Some w => w | None => [] end))]))
                         else ret tt) = Normal tt)
      by (destruct (nonEmptyList (pl_warnings resp)); [apply log_outcome | reflexivity]).
    rewrite W.
    destruct (pl_results resp) as [[| n rest] |].
    + rewrite outcome_bind, log_outcome. reflexivity.
    + rewrite (outcome_mapM _ (fun n => Parallel.canonical (newURL_hostname P (pl_url n)) n))
        by (intros; apply parallel_toSearchResult_outcome).
      reflexivity.
    + rewrite outcome_bind, log_outcome. reflexivity.
  - rewrite outcome_bind, log_outcome. reflexivity.
Qed.

(** What [search] of a configured arxiv handle settles to. *)
Lemma arxiv_search_outcome P baseUrl options :
  outcome (Arxiv.searchImpl P baseUrl options) =
  if Arxiv.missingQuery options
  then Throw (Error ("Arxiv search requires either a " ++ dq ++ "query" ++ dq
                     ++ " or an " ++ dq ++ "idList" ++ dq ++ "."))
  else
    match getText P (Arxiv.requestUrl P baseUrl options) (timeout options) with
    | Normal text =>
        match xmlParse P text with
        | Normal parsed =>
            Normal (map Arxiv.toSearchResult (Adapters.nativeResults parsed))
        | Throw e => Throw (Error (Arxiv.failureMessage P e))
        end
    | Throw e => Throw (Error (Arxiv.failureMessage P e))
    end.
Proof.
  unfold Arxiv.searchImpl.
  destruct (Arxiv.missingQuery options); [reflexivity |].
  rewrite outcome_bind, logRequest_outcome, outcome_tryCatch, outcome_bind, request_outcome.
  destruct (getText P _ _) as [text | e].
  - rewrite outcome_bind, log_outcome, outcome_bind.
    destruct (xmlParse P text) as [parsed | e]; cbn [outcome snd ret throw].
    + rewrite outcome_bind, log_outcome.
      destruct parsed as [[[feed |]] |]; cbn [Adapters.nativeResults].
      * destruct (Arxiv.entriesOf feed) as [| e0 rest] eqn:E.
        -- rewrite outcome_bind, log_outcome. reflexivity.
        -- rewrite outcome_bind, logResponse_outcome. reflexivity.
      * rewrite outcome_bind, log_outcome. reflexivity.
      * rewrite outcome_bind, log_outcome. reflexivity.
    + rewrite outcome_bind, log_outcome. reflexivity.
  - rewrite outcome_bind, log_outcome. reflexivity.
Qed.

Lemma prefix_inv (t s : string) :
  String.prefix t s = true -> exists b, s = t ++ b.
Proof.
  revert s. induction t as [| x t IH]; intros s H.
  - exists s. reflexivity.
  - destruct s as [| y s]; simpl in H; [discriminate |].
    destruct (ascii_dec x y) as [-> | _]; [| discriminate].
    destruct (IH s H) as [b ->]. exists b. reflexivity.
Qed.

Lemma includes_inv (s t : string) :
  JsString.includes s t = true -> exists a b, s = a ++ t ++ b.
Proof.
  induction s as [| x s IH]; intros H; rewrite includes_unfold in H;
    apply orb_true_iff in H; destruct H as [H | H].
  - destruct (prefix_inv _ _ H) as [b E]. exists "", b. exact E.
  - discriminate.
  - destruct (prefix_inv _ _ H) as [b E]. exists "", b. exact E.
  - destruct (IH H) as (a & b & ->). exists (String x a), b. reflexivity.
Qed.

(** [s.includes(t)] holds exactly when [t] occurs in [s]. *)
Lemma includes_spec (s t : string) :
  JsString.includes s t = true <-> exists a b, s = a ++ t ++ b.
Proof.
  split; [apply includes_inv | intros (a & b & ->); apply includes_append].
Qed.

Lemma includes_within (a s b t : string) :
  JsString.includes s t = true -> JsString.includes (a ++ s ++ b) t = true.
Proof.
  intros H. destruct (includes_inv _ _ H) as (a' & b' & ->).
  replace (a ++ (a' ++ t ++ b') ++ b) with ((a ++ a') ++ t ++ (b' ++ b))
    by (rewrite !append_assoc; reflexivity).
  apply includes_append.
Qed.

(** ** What the loop collects *)

Lemma collected_when_all_resolve options providers rss :
  Forall2 (fun p rs => outcome (search p options) = Normal rs) providers rss ->
  flat_map Engine.resultsOf
    (map (fun p => Engine.settle p (outcome (search p options))) providers) = List.concat rss /\
  flat_map Engine.errorsOf
    (map (fun p => Engine.settle p (outcome (search p options))) providers) = [].
Proof.
  induction 1 as [| p rs ps rss' Hp _ [IHr IHe]]; [split; reflexivity |].
  cbn [map flat_map List.concat]. rewrite Hp, IHr, IHe. split; reflexivity.
Qed.

Lemma collected_when_all_reject options providers :
  (forall p, In p providers -> exists e, outcome (search p options) = Throw e) ->
  flat_map Engine.resultsOf
    (map (fun p => Engine.settle p (outcome (search p options))) providers) = [] /\
  flat_map Engine.errorsOf
    (map (fun p => Engine.settle p (outcome (search p options))) providers) =
  map (fun p => match outcome (search p options) with
                | Throw e => Engine.detailedErrorMessage p e
                | Normal _ => ""
                end) providers.
Proof.
  induction providers as [| p ps IH]; intros H; [split; reflexivity |].
  destruct IH as [IHr IHe]; [intros q Hq; apply H; right; exact Hq |].
  destruct (H p (or_introl eq_refl)) as [e He].
  cbn [map flat_map]. rewrite He, IHr, IHe. split; reflexivity.
Qed.

(** The detailed message starts with the adapter's name and its failure text. *)
Lemma detailedErrorMessage_head p e :
  exists tail,
    Engine.detailedErrorMessage p e =
    ("Search with provider '" ++ name p ++ "' failed: " ++ messageOf e) ++ tail.
Proof.
  unfold Engine.detailedErrorMessage.
  match goal with |- context [if ?c then ?x else ?y] => exists (if c then x else y) end.
  rewrite !append_assoc. reflexivity.
Qed.

(** ** The adapters label their results *)

Lemma shipped_selfLabelled P options p :
  Adapters.Shipped P p -> Adapters.selfLabelled options p.
Proof.
  intros [[c | c | c] Hb] rs Hrs; cbn in Hb.
  - unfold Perplexity.configure, Perplexity.createPerplexityProvider in Hb.
    destruct (pxc_apiKey c) as [[| k0 k] |]; try discriminate.
    injection Hb as <-. cbn [search name] in *.
    rewrite perplexity_search_outcome in Hrs.
    destruct (query options) as [[| q0 q] |]; try discriminate.
    destruct (Perplexity.reply _ _ _ _ _) as [resp | e]; [| discriminate].
    injection Hrs as <-. apply Forall_forall. intros r Hr.
    apply in_map_iff in Hr. destruct Hr as (n & <- & _). reflexivity.
  - unfold Parallel.configure, Parallel.createParallelProvider in Hb.
    destruct (plc_apiKey c) as [[| k0 k] |]; try discriminate.
    injection Hb as <-. cbn [search name] in *.
    rewrite parallel_search_outcome in Hrs.
    destruct (query options) as [q |]; try discriminate.
    destruct (Parallel.missingQuery (Some q)); [discriminate |].
    destruct (Parallel.reply _ _ _ _ _) as [resp | e]; [| discriminate].
    injection Hrs as <-. apply Forall_forall. intros r Hr.
    apply in_map_iff in Hr. destruct Hr as (n & <- & _). reflexivity.
  - injection Hb as <-. unfold Arxiv.configure, Arxiv.createArxivProvider in *.
    cbn [search name] in *.
    rewrite arxiv_search_outcome in Hrs.
    destruct (Arxiv.missingQuery options); [discriminate |].
    destruct (getText P _ _) as [text | e]; [| discriminate].
    destruct (xmlParse P text) as [parsed | e]; [| discriminate].
    injection Hrs as <-. apply Forall_forall. intros r Hr.
    apply in_map_iff in Hr. destruct Hr as (n & <- & _). reflexivity.
Qed.

Lemma append_nil_r (s : string) : s ++ "" = s.
Proof. induction s as [| x s IH]; simpl; [reflexivity | rewrite IH; reflexivity]. Qed.

Lemma includes_refl (s : string) : JsString.includes s s = true.
Proof. rewrite <- (append_nil_r s) at 1. apply includes_here. Qed.

Lemma includes_after (a s t : string) :
  JsString.includes s t = true -> JsString.includes (a ++ s) t = true.
Proof.
  intros H. rewrite <- (append_nil_r s). apply includes_within. exact H.
Qed.

Lemma includes_before (s b t : string) :
  JsString.includes s t = true -> JsString.includes (s ++ b) t = true.
Proof. intros H. exact (includes_within "" s b t H). Qed.

Lemma includes_trans (s t u : string) :
  JsString.includes s t = true -> JsString.includes t u = true ->
  JsString.includes s u = true.
Proof.
  intros Hst Htu. destruct (includes_inv _ _ Hst) as (a & b & ->).
  apply includes_within. exact Htu.
Qed.

(** ** The fan-out engine *)

Section Aggregation.

Variable options : SearchOptions.

(** C1 (as the code has it).  When both checks of [webSearch] pass and every
    supplied adapter's search resolves, [webSearch] resolves with the
    concatenation of the adapters' result arrays in the order the adapters
    were supplied, every element unchanged.  The engine does not set the
    [provider] field: it equals the adapter's name for every adapter that
    labels its own results, as the handles of the repository's factories
    do. *)
Theorem webSearch_concatenates (P : Platform) (providers : list SearchProvider)
        (rss : list (list SearchResult)) :
  providers <> [] ->
  Engine.missingQuery providers options = false ->
  Forall2 (fun p rs => outcome (search p options) = Normal rs) providers rss ->
  outcome (Engine.webSearch providers options) = Normal (List.concat rss) /\
  Forall2 (fun p rs =>
             Adapters.Shipped P p \/ Adapters.selfLabelled options p ->
             Forall (fun r => provider r = name p) rs) providers rss.
Proof.
  intros Hne Hq Hall. split.
  - rewrite (webSearch_outcome providers options Hne Hq). cbv zeta.
    destruct (collected_when_all_resolve options providers rss Hall) as [-> ->].
    cbn [List.length Nat.ltb Nat.leb]. rewrite andb_false_r. reflexivity.
  - clear Hne Hq. induction Hall as [| p rs ps rss' Hp _ IH]; constructor.
    + intros [Hs | Hl]; [apply (shipped_selfLabelled P options p Hs) | apply Hl];
        exact Hp.
    + apply IH.
Qed.

(** C3.  When both checks pass and every supplied adapter's search rejects,
    [webSearch] rejects with one error whose message contains, for every
    adapter, the adapter's name followed by that adapter's whole failure
    text. *)
Theorem webSearch_all_rejected (providers : list SearchProvider) :
  providers <> [] ->
  Engine.missingQuery providers options = false ->
  (forall p, In p providers -> exists e, outcome (search p options) = Throw e) ->
  exists message,
    outcome (Engine.webSearch providers options) = Throw (Error message) /\
    forall p e, In p providers -> outcome (search p options) = Throw e ->
      JsString.includes message
        ("Search with provider '" ++ name p ++ "' failed: " ++ messageOf e) = true /\
      JsString.includes message (name p) = true /\
      JsString.includes message (messageOf e) = true.
Proof.
  intros Hne Hq Hall.
  destruct (collected_when_all_reject options providers Hall) as [Hr He].
  eexists. split.
  - rewrite (webSearch_outcome providers options Hne Hq). cbv zeta.
    rewrite Hr, He, length_map.
    destruct providers as [| p0 ps]; [contradiction Hne; reflexivity |].
    reflexivity.
  - intros p e Hin Hp.
    assert (Hneedle :
              JsString.includes
                (Engine.allFailedMessage (List.length providers)
                   (map (fun p => match outcome (search p options) with
                                  | Throw e => Engine.detailedErrorMessage p e
                                  | Normal _ => ""
                                  end) providers))
                ("Search with provider '" ++ name p ++ "' failed: " ++ messageOf e) = true).
    { unfold Engine.allFailedMessage.
      do 5 apply includes_after.
      destruct (join_In (nl ++ nl) (Engine.detailedErrorMessage p e)
                  (map (fun p => match outcome (search p options) with
                                 | Throw e => Engine.detailedErrorMessage p e
                                 | Normal _ => ""
                                 end) providers)) as (a & b & ->).
      { apply in_map_iff. exists p. rewrite Hp. split; [reflexivity | exact Hin]. }
      apply includes_after, includes_before.
      destruct (detailedErrorMessage_head p e) as [tail ->].
      apply includes_here. }
    split; [exact Hneedle |]. split.
    + apply (includes_trans _ _ _ Hneedle).
      apply includes_after, includes_here.
    + apply (includes_trans _ _ _ Hneedle).
      do 3 apply includes_after. apply includes_refl.
Qed.


(** C9 (as the code has it).  The object built for an adapter carries the
    adapter's name and has one of two shapes: the adapter's results with a
    [null] error when the search resolved, or the detailed error with an
    empty results list when it rejected.  An error never comes with a
    non-empty results list. *)
Theorem outcome_shapes (p : SearchProvider) :
  exists o,
    outcome (Engine.searchOne options p) = Normal o /\
    Engine.o_provider o = name p /\
    ((exists rs, outcome (search p options) = Normal rs /\
                 Engine.o_results o = rs /\ Engine.o_error o = None) \/
     (exists e, outcome (search p options) = Throw e /\
                Engine.o_results o = [] /\
                Engine.o_error o = Some (Error (Engine.detailedErrorMessage p e)))) /\
    ~ (Engine.o_error o <> None /\ Engine.o_results o <> []).
Proof.
  exists (Engine.settle p (outcome (search p options))).
  split; [apply searchOne_outcome |].
  destruct (outcome (search p options)) as [rs | e]; cbn.
  - split; [reflexivity |]. split.
    + left. exists rs. repeat split.
    + intros [H _]. apply H. reflexivity.
  - split; [reflexivity |]. split.
    + right. exists e. repeat split.
    + intros [_ H]. apply H. reflexivity.
Qed.

End Aggregation.

(** Fail-soft aggregation as the code has it: once some adapter has resolved
    with at least one result, [webSearch] resolves with the results of the
    adapters that resolved, in the order supplied, whatever the others did. *)
Lemma webSearch_fail_soft providers options :
  providers <> [] ->
  Engine.missingQuery providers options = false ->
  (exists p r rs, In p providers /\ outcome (search p options) = Normal (r :: rs)) ->
  outcome (Engine.webSearch providers options) =
  Normal (flat_map (fun p => match outcome (search p options) with
                             | Normal rs => rs
                             | Throw _ => []
                             end) providers).
Proof.
  intros Hne Hq (p & r & rs & Hin & Hp).
  rewrite (webSearch_outcome providers options Hne Hq). cbv zeta.
  assert (E : flat_map Engine.resultsOf
                (map (fun p => Engine.settle p (outcome (search p options))) providers) =
              flat_map (fun p => match outcome (search p options) with
                                 | Normal rs => rs
                                 | Throw _ => []
                                 end) providers).
  { clear. induction providers as [| q qs IH]; [reflexivity |].
    cbn [map flat_map]. rewrite IH.
    destruct (outcome (search q options)); reflexivity. }
  rewrite E.
  assert (N : In r (flat_map (fun p => match outcome (search p options) with
                                       | Normal rs => rs
                                       | Throw _ => []
                                       end) providers)).
  { apply in_flat_map. exists p. split; [exact Hin |]. rewrite Hp. left. reflexivity. }
  destruct (flat_map _ providers) as [| x xs]; [contradiction N | reflexivity].
Qed.

(** C1, the claim as stated fails: an adapter named [A] whose resolved result
    is labelled [B] has that result returned as it is. *)
Lemma webSearch_keeps_foreign_label :
  outcome (search Samples.adapterMislabelled (Samples.plainOptions (Some "q"))) =
    Normal [Samples.result "https://good.com" "Good" "B"] /\
  outcome (Engine.webSearch [Samples.adapterMislabelled] (Samples.plainOptions (Some "q"))) =
    Normal [Samples.result "https://good.com" "Good" "B"] /\
  provider (Samples.result "https://good.com" "Good" "B")
    <> name Samples.adapterMislabelled.
Proof. repeat split; try reflexivity. cbn. discriminate. Qed.

Lemma webSearch_concatenates_witness :
  outcome (Engine.webSearch [Samples.adapterA; Samples.pxHandle]
             (Samples.plainOptions (Some "q"))) =
    Normal (List.concat
              [[Samples.good];
               [Perplexity.canonical None Samples.pxBadUrl;
                Perplexity.canonical (Some "example.com") Samples.pxGood]]) /\
  Forall2 (fun p rs =>
             Adapters.Shipped Samples.mixedPlatform p
             \/ Adapters.selfLabelled (Samples.plainOptions (Some "q")) p ->
             Forall (fun r => provider r = name p) rs)
          [Samples.adapterA; Samples.pxHandle]
          [[Samples.good];
           [Perplexity.canonical None Samples.pxBadUrl;
            Perplexity.canonical (Some "example.com") Samples.pxGood]].
Proof.
  apply (webSearch_concatenates (Samples.plainOptions (Some "q")) Samples.mixedPlatform);
    [discriminate | reflexivity | repeat constructor].
Defined.

(** C2, at the failing input: adapter [A] resolves with no results, adapter
    [B] rejects, and [webSearch] rejects with the all-failed error. *)
Theorem webSearch_rejects_despite_empty_success :
  outcome (search Samples.adapterEmpty (Samples.plainOptions (Some "q"))) = Normal [] /\
  outcome (Engine.webSearch [Samples.adapterEmpty; Samples.adapterBoom]
             (Samples.plainOptions (Some "q"))) =
    Throw (Error (Engine.allFailedMessage 2
                    [Engine.detailedErrorMessage Samples.adapterBoom (Error "boom")])).
Proof. split; reflexivity. Qed.

Lemma webSearch_all_rejected_witness :
  exists message,
    outcome (Engine.webSearch [Samples.adapter429; Samples.adapterBoom]
               (Samples.noisyOptions (Some "q"))) = Throw (Error message) /\
    forall p e, In p [Samples.adapter429; Samples.adapterBoom] ->
      outcome (search p (Samples.noisyOptions (Some "q"))) = Throw e ->
      JsString.includes message
        ("Search with provider '" ++ name p ++ "' failed: " ++ messageOf e) = true /\
      JsString.includes message (name p) = true /\
      JsString.includes message (messageOf e) = true.
Proof.
  apply (webSearch_all_rejected (Samples.noisyOptions (Some "q")));
    [discriminate | reflexivity |].
  intros p [<- | [<- | []]]; eexists; reflexivity.
Defined.



(** C9, the claim as stated fails: the object built for a rejecting adapter
    holds a results list, the empty one, together with an error. *)
Lemma rejected_outcome_has_results_and_error :
  outcome (Engine.searchOne (Samples.plainOptions (Some "q")) Samples.adapterBoom) =
    Normal {| Engine.o_provider := "B";
              Engine.o_results := [];
              Engine.o_error :=
                Some (Error (Engine.detailedErrorMessage Samples.adapterBoom
                               (Error "boom"))) |}.
Proof. reflexivity. Qed.

(** ** The adapters *)

Lemma In_trace_bind_r {A B} (m : M A) (f : A -> M B) (a : A) (ev : Event) :
  outcome m = Normal a -> In ev (trace (f a)) -> In ev (trace (bind m f)).
Proof.
  intros H Hin. rewrite trace_bind, H. apply in_or_app. right. exact Hin.
Qed.

Lemma In_trace_tryCatch {A} (m : M A) (h : Thrown -> M A) (ev : Event) :
  In ev (trace m) -> In ev (trace (tryCatch m h)).
Proof.
  intros Hin. rewrite trace_tryCatch.
  destruct (outcome m); [exact Hin | apply in_or_app; left; exact Hin].
Qed.

Lemma In_trace_request {A B} (method u : string) (reply : Completion A) (f : A -> M B) :
  In (EvHttp method u) (trace (bind (request method u reply) f)).
Proof.
  destruct reply as [a | e]; cbn; [destruct (f a); cbn |]; left; reflexivity.
Qed.

(** A configured handle whose own check accepts the query issues a request. *)
Lemma configured_search_requests P b p options :
  Adapters.configure P b = Normal p ->
  Adapters.accepts b options = true ->
  exists method u, In (EvHttp method u) (trace (search p options)).
Proof.
  destruct b as [c | c | c]; cbn; intros Hb Ha.
  - unfold Perplexity.configure, Perplexity.createPerplexityProvider in Hb.
    destruct (pxc_apiKey c) as [[| k0 k] |]; try discriminate.
    injection Hb as <-. cbn [search]. unfold Perplexity.searchImpl.
    destruct (query options) as [[| q0 q] |]; try discriminate.
    exists "POST", (Perplexity.baseUrlOf c).
    eapply In_trace_bind_r; [apply logRequest_outcome |].
    apply In_trace_tryCatch, In_trace_request.
  - unfold Parallel.configure, Parallel.createParallelProvider in Hb.
    destruct (plc_apiKey c) as [[| k0 k] |]; try discriminate.
    injection Hb as <-. cbn [search]. unfold Parallel.searchImpl.
    destruct (query options) as [q |]; [| discriminate].
    destruct (Parallel.missingQuery (Some q)); [discriminate |].
    exists "POST", (Parallel.baseUrlOf c).
    eapply In_trace_bind_r; [apply logRequest_outcome |].
    apply In_trace_tryCatch, In_trace_request.
  - injection Hb as <-. unfold Arxiv.configure, Arxiv.createArxivProvider.
    cbn [search]. unfold Arxiv.searchImpl.
    destruct (Arxiv.missingQuery options); [discriminate |].
    exists "GET", (Arxiv.requestUrl P (Arxiv.baseUrlOf c) options).
    eapply In_trace_bind_r; [apply logRequest_outcome |].
    apply In_trace_tryCatch, In_trace_request.
Qed.

(** The settled value of a configured handle, backend by backend. *)
Lemma configured_search_outcome P b p options urls :
  Adapters.configure P b = Normal p ->
  Adapters.accepts b options = true ->
  Adapters.nativeUrls P b options = Normal urls ->
  exists rs,
    outcome (search p options) = Normal rs /\
    map url rs = urls /\
    Forall (fun r => domain r = match b with
                                | Adapters.BArxiv _ => None
                                | _ => newURL_hostname P (url r)
                                end) rs.
Proof.
  destruct b as [c | c | c]; cbn; intros Hb Ha Hn.
  - unfold Perplexity.configure, Perplexity.createPerplexityProvider in Hb.
    destruct (pxc_apiKey c) as [[| k0 k] |]; try discriminate.
    injection Hb as <-. cbn [search]. rewrite perplexity_search_outcome.
    destruct (query options) as [[| q0 q] |]; try discriminate.
    destruct (Perplexity.reply _ _ _ _ _) as [resp | e]; [| discriminate].
    injection Hn as <-. eexists. split; [reflexivity |]. split.
    + rewrite map_map. reflexivity.
    + apply Forall_forall. intros r Hr. apply in_map_iff in Hr.
      destruct Hr as (n & <- & _). reflexivity.
  - unfold Parallel.configure, Parallel.createParallelProvider in Hb.
    destruct (plc_apiKey c) as [[| k0 k] |]; try discriminate.
    injection Hb as <-. cbn [search]. rewrite parallel_search_outcome.
    destruct (query options) as [q |]; [| discriminate].
    destruct (Parallel.missingQuery (Some q)); [discriminate |].
    destruct (Parallel.reply _ _ _ _ _) as [resp | e]; [| discriminate].
    injection Hn as <-. eexists. split; [reflexivity |]. split.
    + rewrite map_map. reflexivity.
    + apply Forall_forall. intros r Hr. apply in_map_iff in Hr.
      destruct Hr as (n & <- & _). reflexivity.
  - injection Hb as <-. unfold Arxiv.configure, Arxiv.createArxivProvider.
    cbn [search]. rewrite arxiv_search_outcome.
    destruct (Arxiv.missingQuery options); [discriminate |].
    destruct (getText P _ _) as [text | e]; [| discriminate].
    destruct (xmlParse P text) as [parsed | e]; [| discriminate].
    injection Hn as <-. eexists. split; [reflexivity |]. split.
    + rewrite map_map. reflexivity.
    + apply Forall_forall. intros r Hr. apply in_map_iff in Hr.
      destruct Hr as (n & <- & _). reflexivity.
Qed.

(** C5.  The module-level objects [perplexity], [parallel] and [arxiv] reject
    every search with a message containing "must be configured", having
    issued no request and produced no other event; a handle returned by
    [configure] issues its request as soon as its own check accepts the
    query. *)
Theorem unconfigured_search_rejects :
  Forall (fun p => forall options, exists message,
              search p options = throw (Error message) /\
              JsString.includes message "must be configured" = true)
         Adapters.singletons /\
  (forall P b p options,
      Adapters.configure P b = Normal p ->
      Adapters.accepts b options = true ->
      exists method u, In (EvHttp method u) (trace (search p options))).
Proof.
  split.
  - repeat constructor; intros options; eexists; split; reflexivity.
  - apply configured_search_requests.
Qed.

Lemma unconfigured_search_rejects_witness :
  exists method u,
    In (EvHttp method u)
       (trace (search Samples.plHandle (Samples.plainOptions (Some "q")))).
Proof.
  apply (proj2 unconfigured_search_rejects Samples.mixedPlatform
           (Adapters.BParallel Samples.plConfig));
    reflexivity.
Defined.

(** C6 (as the code has it).  Every result a configured handle resolves with
    keeps its native record in [raw] and has the native url; its title is the
    native title, which the parallel adapter replaces by "No title available"
    when the native record has none (or an empty one), the arxiv adapter
    tidies, and the perplexity adapter copies as it is. *)
Theorem results_keep_native_url_and_title P p options rs :
  Adapters.Shipped P p ->
  outcome (search p options) = Normal rs ->
  Forall Adapters.urlAndTitleFromRaw rs.
Proof.
  intros [[c | c | c] Hb] Hrs; cbn in Hb.
  - unfold Perplexity.configure, Perplexity.createPerplexityProvider in Hb.
    destruct (pxc_apiKey c) as [[| k0 k] |]; try discriminate.
    injection Hb as <-. cbn [search] in Hrs.
    rewrite perplexity_search_outcome in Hrs.
    destruct (query options) as [[| q0 q] |]; try discriminate.
    destruct (Perplexity.reply _ _ _ _ _) as [resp | e]; [| discriminate].
    injection Hrs as <-. apply Forall_forall. intros r Hr.
    apply in_map_iff in Hr. destruct Hr as (n & <- & _). split; reflexivity.
  - unfold Parallel.configure, Parallel.createParallelProvider in Hb.
    destruct (plc_apiKey c) as [[| k0 k] |]; try discriminate.
    injection Hb as <-. cbn [search] in Hrs.
    rewrite parallel_search_outcome in Hrs.
    destruct (query options) as [q |]; try discriminate.
    destruct (Parallel.missingQuery (Some q)); [discriminate |].
    destruct (Parallel.reply _ _ _ _ _) as [resp | e]; [| discriminate].
    injection Hrs as <-. apply Forall_forall. intros r Hr.
    apply in_map_iff in Hr. destruct Hr as (n & <- & _).
    unfold Adapters.urlAndTitleFromRaw, Parallel.canonical, Parallel.titleOf.
    cbn [raw url title]. split; [reflexivity |].
    destruct (pl_title n) as [[| t0 t] |]; reflexivity.
  - injection Hb as <-. unfold Arxiv.configure, Arxiv.createArxivProvider in Hrs.
    cbn [search] in Hrs. rewrite arxiv_search_outcome in Hrs.
    destruct (Arxiv.missingQuery options); [discriminate |].
    destruct (getText P _ _) as [text | e]; [| discriminate].
    destruct (xmlParse P text) as [parsed | e]; [| discriminate].
    injection Hrs as <-. apply Forall_forall. intros r Hr.
    apply in_map_iff in Hr. destruct Hr as (n & <- & _). split; reflexivity.
Qed.

(** C6, the claim as stated fails: the perplexity adapter maps a native record
    without a title to a result whose title is [undefined]. *)
Lemma perplexity_result_without_title :
  px_title Samples.pxUntitled = None /\
  outcome (search Samples.pxUntitledHandle (Samples.plainOptions (Some "q"))) =
    Normal [Perplexity.canonical (Some "example.com/untitled") Samples.pxUntitled] /\
  title (Perplexity.canonical (Some "example.com/untitled") Samples.pxUntitled) = None.
Proof. repeat split. Qed.

Lemma results_keep_native_url_and_title_witness :
  Forall Adapters.urlAndTitleFromRaw
    [Parallel.canonical None Samples.plBadUrl;
     Parallel.canonical (Some "another.com") Samples.plUntitled].
Proof.
  apply (results_keep_native_url_and_title Samples.mixedPlatform Samples.plHandle
           (Samples.plainOptions (Some "q")));
    [exists (Adapters.BParallel Samples.plConfig); reflexivity | reflexivity].
Defined.

(** C7.  For each backend, when the handle's own check accepts the query and
    the reply's native result list is absent or empty, [search] resolves with
    the empty array. *)
Theorem empty_native_list_resolves_empty P b p options :
  Adapters.configure P b = Normal p ->
  Adapters.accepts b options = true ->
  Adapters.nativeUrls P b options = Normal [] ->
  outcome (search p options) = Normal [].
Proof.
  intros Hb Ha Hn.
  destruct (configured_search_outcome P b p options [] Hb Ha Hn) as (rs & Hrs & Hu & _).
  destruct rs; [exact Hrs | discriminate].
Qed.

Lemma empty_native_list_resolves_empty_witness :
  outcome (search (Arxiv.configure Samples.emptyPlatform Samples.axConfig)
             (Samples.plainOptions (Some "q"))) = Normal [].
Proof.
  apply (empty_native_list_resolves_empty Samples.emptyPlatform
           (Adapters.BArxiv Samples.axConfig));
    reflexivity.
Defined.

(** C8.  For each backend, whatever the URLs of the native results in the
    reply, [search] resolves with one canonical result per native result, in
    order; a result whose URL the [URL] constructor cannot parse has an
    undefined domain. *)
Theorem unparseable_url_gives_undefined_domain P b p options urls :
  Adapters.configure P b = Normal p ->
  Adapters.accepts b options = true ->
  Adapters.nativeUrls P b options = Normal urls ->
  exists rs,
    outcome (search p options) = Normal rs /\
    map url rs = urls /\
    Forall (fun r => newURL_hostname P (url r) = None -> domain r = None) rs.
Proof.
  intros Hb Ha Hn.
  destruct (configured_search_outcome P b p options urls Hb Ha Hn) as (rs & Hrs & Hu & Hd).
  exists rs. split; [exact Hrs |]. split; [exact Hu |].
  apply Forall_forall. intros r Hr Hnone.
  rewrite Forall_forall in Hd. rewrite (Hd r Hr).
  destruct b; [exact Hnone | exact Hnone | reflexivity].
Qed.

Lemma unparseable_url_gives_undefined_domain_witness :
  exists rs,
    outcome (search Samples.pxHandle (Samples.plainOptions (Some "q"))) = Normal rs /\
    map url rs = ["not-a-url"; "https://example.com"] /\
    Forall (fun r => newURL_hostname Samples.mixedPlatform (url r) = None ->
                     domain r = None) rs.
Proof.
  apply (unparseable_url_gives_undefined_domain Samples.mixedPlatform
           (Adapters.BPerplexity Samples.pxConfig));
    reflexivity.
Defined.

(* ================================================================== *)
(** * Further properties of the code *)

(** ** What the debug hook hands to the logger *)

(** X1.  With a caller-supplied logger, [debug.log] calls it exactly once
    with the message and data unchanged when [enabled] is set and not at all
    otherwise; [logRequest] and [logResponse] also need their own flag and
    prefix the message with "REQUEST: " and "RESPONSE: ".  This is so whether
    the logger returns or throws. *)
Theorem logger_called_as_flags_say options f message data :
  Debug.loggerOf options = Some f ->
  trace (Debug.log options message data) =
    (if Debug.flag Debug.enabled options then [EvLogger message data] else []) /\
  trace (Debug.logRequest options message data) =
    (if Debug.flag Debug.enabled options && Debug.flag Debug.logRequests options
     then [EvLogger ("REQUEST: " ++ message) data] else []) /\
  trace (Debug.logResponse options message data) =
    (if Debug.flag Debug.enabled options && Debug.flag Debug.logResponses options
     then [EvLogger ("RESPONSE: " ++ message) data] else []).
Proof.
  intros Hf.
  assert (C : forall m, trace (tryCatch (Debug.callLogger options m data) (fun _ => ret tt))
                        = [EvLogger m data]).
  { intros m. unfold Debug.callLogger. rewrite Hf.
    destruct (f m data) as [[] | e]; reflexivity. }
  unfold Debug.log, Debug.logRequest, Debug.logResponse. repeat split.
  - destruct (Debug.flag Debug.enabled options); [apply C | reflexivity].
  - destruct (Debug.flag Debug.enabled options && Debug.flag Debug.logRequests options);
      [apply C | reflexivity].
  - destruct (Debug.flag Debug.enabled options && Debug.flag Debug.logResponses options);
      [apply C | reflexivity].
Qed.

Lemma logger_called_as_flags_say_witness :
  trace (Debug.log (Some (Samples.debugAll Samples.throwingLogger)) "msg" None) =
    [EvLogger "msg" None] /\
  trace (Debug.logRequest (Some (Samples.debugAll Samples.throwingLogger)) "msg" None) =
    [EvLogger "REQUEST: msg" None] /\
  trace (Debug.logResponse (Some (Samples.debugAll Samples.throwingLogger)) "msg" None) =
    [EvLogger "RESPONSE: msg" None].
Proof.
  apply (logger_called_as_flags_say (Some (Samples.debugAll Samples.throwingLogger))
           Samples.throwingLogger "msg" None).
  reflexivity.
Defined.

(** X2.  Without a caller-supplied logger an enabled [debug.log] writes one
    console line, the message prefixed with "[@omnisearch] ", together with
    the data only when the data is truthy; disabled, it writes nothing. *)
Theorem console_line_without_logger options message data :
  Debug.loggerOf options = None ->
  trace (Debug.log options message data) =
    if Debug.flag Debug.enabled options
    then [EvConsole ("[@omnisearch] " ++ message)
            (match data with
             | Some d => if jsTruthy d then Some d else None
             | None => None
             end)]
    else [].
Proof.
  intros Hf. unfold Debug.log, Debug.callLogger. rewrite Hf.
  destruct (Debug.flag Debug.enabled options); [| reflexivity].
  unfold Debug.defaultLogger.
  destruct data as [d |]; [destruct (jsTruthy d) |]; reflexivity.
Qed.

Lemma console_line_without_logger_witness :
  trace (Debug.log (Some {| Debug.enabled := Some true; Debug.logRequests := None;
                            Debug.logResponses := None; Debug.logger := None |})
                   "test message" (Some (JStr ""))) =
    [EvConsole "[@omnisearch] test message" None].
Proof.
  apply (console_line_without_logger
           (Some {| Debug.enabled := Some true; Debug.logRequests := None;
                    Debug.logResponses := None; Debug.logger := None |})
           "test message" (Some (JStr ""))).
  reflexivity.
Defined.

(** ** Observers that ignore log calls *)

Lemma filter_trace_bind {A B} (f : Event -> bool) (m : M A) (k : A -> M B) :
  filter f (trace (bind m k)) =
  (filter f (trace m) ++
   match outcome m with
   | Normal a => filter f (trace (k a))
   | Throw _ => []
   end)%list.
Proof.
  rewrite trace_bind. destruct (outcome m).
  - apply filter_app.
  - rewrite app_nil_r. reflexivity.
Qed.

Lemma filter_trace_tryCatch {A} (f : Event -> bool) (m : M A) (h : Thrown -> M A) :
  filter f (trace (tryCatch m h)) =
  (filter f (trace m) ++
   match outcome m with
   | Normal _ => []
   | Throw e => filter f (trace (h e))
   end)%list.
Proof.
  rewrite trace_tryCatch. destruct (outcome m).
  - rewrite app_nil_r. reflexivity.
  - apply filter_app.
Qed.

Lemma callLogger_unobserved f options message data :
  Observed.ignoresLogging f ->
  filter f (trace (tryCatch (Debug.callLogger options message data) (fun _ => ret tt))) = [].
Proof.
  intros Hf. unfold Debug.callLogger.
  destruct (Debug.loggerOf options) as [g |].
  - destruct (g message data) as [[] | e]; cbn;
      rewrite (Hf (EvLogger message data) eq_refl); reflexivity.
  - unfold Debug.defaultLogger.
    destruct data as [d |]; [destruct (jsTruthy d) |]; cbn;
      rewrite (Hf (EvConsole _ _) eq_refl); reflexivity.
Qed.

Lemma log_unobserved f options message data :
  Observed.ignoresLogging f ->
  filter f (trace (Debug.log options message data)) = [].
Proof.
  intros Hf. unfold Debug.log.
  destruct (Debug.flag Debug.enabled options);
    [apply callLogger_unobserved; exact Hf | reflexivity].
Qed.

Lemma logRequest_unobserved f options message data :
  Observed.ignoresLogging f ->
  filter f (trace (Debug.logRequest options message data)) = [].
Proof.
  intros Hf. unfold Debug.logRequest.
  destruct (Debug.flag Debug.enabled options && Debug.flag Debug.logRequests options);
    [apply callLogger_unobserved; exact Hf | reflexivity].
Qed.

Lemma logResponse_unobserved f options message data :
  Observed.ignoresLogging f ->
  filter f (trace (Debug.logResponse options message data)) = [].
Proof.
  intros Hf. unfold Debug.logResponse.
  destruct (Debug.flag Debug.enabled options && Debug.flag Debug.logResponses options);
    [apply callLogger_unobserved; exact Hf | reflexivity].
Qed.

Lemma mapM_unobserved {A B} (f : Event -> bool) (g : A -> M B) (xs : list A) :
  (forall x, filter f (trace (g x)) = []) ->
  filter f (trace (mapM g xs)) = [].
Proof.
  intros H. induction xs as [| x rest IH]; [reflexivity |].
  cbn [mapM]. rewrite filter_trace_bind, H.
  destruct (outcome (g x)); [| reflexivity].
  rewrite filter_trace_bind, IH.
  destruct (outcome (mapM g rest)); reflexivity.
Qed.

Lemma extractDomain_trace P u : trace (extractDomain P u) = [].
Proof. unfold extractDomain, hostname. destruct (newURL_hostname P u); reflexivity. Qed.

Lemma isHttp_ignoresLogging : Observed.ignoresLogging Observed.isHttp.
Proof. intros [] H; try reflexivity; discriminate. Qed.

Lemma isSearch_ignoresLogging : Observed.ignoresLogging Observed.isSearch.
Proof. intros [] H; try reflexivity; discriminate. Qed.

Lemma request_trace {A} method u (reply : Completion A) :
  trace (request method u reply) = [EvHttp method u].
Proof. destruct reply; reflexivity. Qed.

Lemma perplexity_toSearchResult_unobserved f P n :
  filter f (trace (Perplexity.toSearchResult P n)) = [].
Proof.
  unfold Perplexity.toSearchResult.
  rewrite filter_trace_bind, extractDomain_trace, extractDomain_outcome. reflexivity.
Qed.

Lemma parallel_toSearchResult_unobserved f P n :
  filter f (trace (Parallel.toSearchResult P n)) = [].
Proof.
  unfold Parallel.toSearchResult.
  rewrite filter_trace_bind, extractDomain_trace, extractDomain_outcome. reflexivity.
Qed.

Ltac unobserve Hf :=
  repeat first
    [ rewrite (log_unobserved _ _ _ _ Hf)
    | rewrite (logRequest_unobserved _ _ _ _ Hf)
    | rewrite (logResponse_unobserved _ _ _ _ Hf)
    | rewrite log_outcome
    | rewrite logRequest_outcome
    | rewrite logResponse_outcome
    | rewrite request_trace
    | rewrite request_outcome
    | rewrite filter_trace_bind
    | rewrite filter_trace_tryCatch
    | rewrite outcome_bind
    | rewrite app_nil_r
    | rewrite app_nil_l ].

(** What an observer that ignores log calls sees of a configured handle's
    search: the one request, or nothing when the handle refuses the query. *)
Lemma configured_search_observed f P b p options :
  Observed.ignoresLogging f ->
  Adapters.configure P b = Normal p ->
  filter f (trace (search p options)) =
  if Adapters.accepts b options then filter f [Observed.requestOf P b options] else [].
Proof.
  intros Hf Hb. destruct b as [c | c | c]; cbn in Hb |- *.
  - unfold Perplexity.configure, Perplexity.createPerplexityProvider in Hb.
    destruct (pxc_apiKey c) as [[| k0 k] |]; try discriminate.
    injection Hb as <-. cbn [search]. unfold Perplexity.searchImpl.
    destruct (query options) as [[| q0 q] |]; try reflexivity.
    cbn [JsString.truthy]. unobserve Hf.
    destruct (Perplexity.reply _ _ _ _ _) as [resp | e]; unobserve Hf.
    + destruct (px_results resp) as [[| n rest] |]; unobserve Hf; try reflexivity.
      rewrite (mapM_unobserved f (Perplexity.toSearchResult P))
        by (intros; apply perplexity_toSearchResult_unobserved).
      rewrite (outcome_mapM _ (fun n => Perplexity.canonical (newURL_hostname P (px_url n)) n))
        by (intros; apply perplexity_toSearchResult_outcome).
      rewrite !app_nil_r. reflexivity.
    + reflexivity.
  - unfold Parallel.configure, Parallel.createParallelProvider in Hb.
    destruct (plc_apiKey c) as [[| k0 k] |]; try discriminate.
    injection Hb as <-. cbn [search]. unfold Parallel.searchImpl.
    destruct (query options) as [q |]; [| reflexivity].
    destruct (Parallel.missingQuery (Some q)); [reflexivity |].
    cbn [negb]. unobserve Hf.
    destruct (Parallel.reply _ _ _ _ _) as [resp | e]; unobserve Hf.
    + destruct (nonEmptyList (pl_warnings resp)); unobserve Hf;
        (destruct (pl_results resp) as [[| n rest] |]; unobserve Hf; try reflexivity;
         rewrite (mapM_unobserved f (Parallel.toSearchResult P))
           by (intros; apply parallel_toSearchResult_unobserved);
         rewrite (outcome_mapM _ (fun n => Parallel.canonical (newURL_hostname P (pl_url n)) n))
           by (intros; apply parallel_toSearchResult_outcome);
         rewrite !app_nil_r; reflexivity).
    + reflexivity.
  - injection Hb as <-. unfold Arxiv.configure, Arxiv.createArxivProvider.
    cbn [search]. unfold Arxiv.searchImpl.
    destruct (Arxiv.missingQuery options); [reflexivity |].
    cbn [negb]. unobserve Hf.
    destruct (getText P _ _) as [text | e]; unobserve Hf; [| reflexivity].
    destruct (xmlParse P text) as [parsed | e]; cbn [outcome trace fst snd ret throw filter];
      unobserve Hf; [| reflexivity].
    destruct parsed as [[[feed |]] |]; unobserve Hf; try reflexivity.
    destruct (Arxiv.entriesOf feed) as [| e0 rest]; unobserve Hf; reflexivity.
Qed.

(** ** The adapters' requests *)

(** X3.  A configured handle issues exactly one transport request per search,
    to its configured URL, whatever the transport replies (no retry after a
    failure), and none at all when its own check refuses the query. *)
Theorem one_request_per_search P b p options :
  Adapters.configure P b = Normal p ->
  Observed.httpCalls (search p options) =
  if Adapters.accepts b options then [Observed.requestOf P b options] else [].
Proof.
  intros Hb. unfold Observed.httpCalls.
  rewrite (configured_search_observed _ P b p options isHttp_ignoresLogging Hb).
  destruct (Adapters.accepts b options); [| reflexivity].
  destruct b; reflexivity.
Qed.

Lemma one_request_per_search_witness :
  Observed.httpCalls (search (Arxiv.configure MoreSamples.failingPlatform Samples.axConfig)
                        (Samples.noisyOptions (Some "q"))) =
  [EvHttp "GET"
     "http://export.arxiv.org/api/query?search_query=q&start=0&max_results=10&sortBy=relevance&sortOrder=descending"].
Proof.
  apply (one_request_per_search MoreSamples.failingPlatform
           (Adapters.BArxiv Samples.axConfig)).
  reflexivity.
Defined.

(** X4.  A configured handle whose own check refuses the query rejects with
    its "requires a query" error and does nothing else: no request, no log
    call. *)
Theorem refused_query_rejects_at_once P b p options :
  Adapters.configure P b = Normal p ->
  Adapters.accepts b options = false ->
  search p options = throw (Error (Observed.refusal b)).
Proof.
  destruct b as [c | c | c]; cbn; intros Hb Ha.
  - unfold Perplexity.configure, Perplexity.createPerplexityProvider in Hb.
    destruct (pxc_apiKey c) as [[| k0 k] |]; try discriminate.
    injection Hb as <-. cbn [search]. unfold Perplexity.searchImpl.
    destruct (query options) as [[| q0 q] |]; try reflexivity. discriminate.
  - unfold Parallel.configure, Parallel.createParallelProvider in Hb.
    destruct (plc_apiKey c) as [[| k0 k] |]; try discriminate.
    injection Hb as <-. cbn [search]. unfold Parallel.searchImpl.
    destruct (query options) as [q |]; [| reflexivity].
    destruct (Parallel.missingQuery (Some q)); [reflexivity | discriminate].
  - injection Hb as <-. unfold Arxiv.configure, Arxiv.createArxivProvider.
    cbn [search]. unfold Arxiv.searchImpl.
    destruct (Arxiv.missingQuery options); [reflexivity | discriminate].
Qed.

Lemma refused_query_rejects_at_once_witness :
  search Samples.pxHandle (Samples.noisyOptions (Some "")) =
  throw (Error "Perplexity search requires a query.").
Proof.
  apply (refused_query_rejects_at_once Samples.mixedPlatform
           (Adapters.BPerplexity Samples.pxConfig));
    reflexivity.
Defined.

(** X5.  The three adapters disagree on a query made only of white space: the
    parallel handle refuses it before any request, while the perplexity and
    arxiv handles send it to their backend. *)
Theorem whitespace_query_across_adapters P q options cpl cpx cax ppl ppx :
  JsString.blank q = true ->
  q <> "" ->
  query options = Some q ->
  Parallel.configure P cpl = Normal ppl ->
  Perplexity.configure P cpx = Normal ppx ->
  search ppl options = throw (Error "Parallel search requires a query.") /\
  Observed.httpCalls (search ppx options) = [EvHttp "POST" (Perplexity.baseUrlOf cpx)] /\
  Observed.httpCalls (search (Arxiv.configure P cax) options) =
    [EvHttp "GET" (Arxiv.requestUrl P (Arxiv.baseUrlOf cax) options)].
Proof.
  intros Hb Hne Hq Hpl Hpx.
  assert (Ht : JsString.truthy (Some q) = true) by (destruct q; [contradiction | reflexivity]).
  split; [| split].
  - unfold Parallel.configure, Parallel.createParallelProvider in Hpl.
    destruct (plc_apiKey cpl) as [[| k0 k] |]; try discriminate.
    injection Hpl as <-. cbn [search]. unfold Parallel.searchImpl.
    rewrite Hq. unfold Parallel.missingQuery. rewrite Hb, orb_true_r. reflexivity.
  - unfold Observed.httpCalls.
    rewrite (configured_search_observed _ P (Adapters.BPerplexity cpx) ppx options
               isHttp_ignoresLogging Hpx).
    cbn. rewrite Hq, Ht. reflexivity.
  - unfold Observed.httpCalls.
    rewrite (configured_search_observed _ P (Adapters.BArxiv cax) _ options
               isHttp_ignoresLogging eq_refl).
    cbn. unfold Arxiv.missingQuery. rewrite Hq, Ht. reflexivity.
Qed.

Lemma whitespace_query_across_adapters_witness :
  search Samples.plHandle (Samples.plainOptions (Some "   ")) =
    throw (Error "Parallel search requires a query.") /\
  Observed.httpCalls (search Samples.pxHandle (Samples.plainOptions (Some "   "))) =
    [EvHttp "POST" (Perplexity.baseUrlOf Samples.pxConfig)] /\
  Observed.httpCalls (search (Arxiv.configure Samples.mixedPlatform Samples.axConfig)
                        (Samples.plainOptions (Some "   "))) =
    [EvHttp "GET" (Arxiv.requestUrl Samples.mixedPlatform
                     (Arxiv.baseUrlOf Samples.axConfig)
                     (Samples.plainOptions (Some "   ")))].
Proof.
  apply (whitespace_query_across_adapters Samples.mixedPlatform "   "
           (Samples.plainOptions (Some "   ")) Samples.plConfig Samples.pxConfig);
    [reflexivity | discriminate | reflexivity | reflexivity | reflexivity].
Defined.

(** ** The engine, adapter by adapter *)

Lemma missingQuery_false providers options :
  JsString.truthy (query options) = true \/
  ((exists a, In a providers /\ name a = "arxiv") /\
   JsString.truthy (idList options) = true) ->
  Engine.missingQuery providers options = false.
Proof.
  unfold Engine.missingQuery. intros [-> | [(a & Hin & Ha) ->]]; [reflexivity |].
  assert (E : existsb (fun p => String.eqb (name p) "arxiv") providers = true).
  { apply existsb_exists. exists a. split; [exact Hin |]. rewrite Ha. reflexivity. }
  rewrite E. apply andb_false_r.
Qed.

Lemma collected_results providers options :
  flat_map Engine.resultsOf
    (map (fun p => Engine.settle p (outcome (search p options))) providers) =
  flat_map (fun p => match outcome (search p options) with
                     | Normal rs => rs
                     | Throw _ => []
                     end) providers.
Proof.
  induction providers as [| q qs IH]; [reflexivity |].
  cbn [map flat_map]. rewrite IH. destruct (outcome (search q options)); reflexivity.
Qed.

Lemma collected_errors providers options :
  flat_map Engine.errorsOf
    (map (fun p => Engine.settle p (outcome (search p options))) providers) =
  flat_map (fun p => match outcome (search p options) with
                     | Throw e => [Engine.detailedErrorMessage p e]
                     | Normal _ => []
                     end) providers.
Proof.
  induction providers as [| q qs IH]; [reflexivity |].
  cbn [map flat_map]. rewrite IH. destruct (outcome (search q options)); reflexivity.
Qed.

(** X6.  The settled value of [webSearch] in terms of the adapters' own: with
    at least one adapter and a usable query (or an arxiv adapter and an
    identifier list), it rejects exactly when nothing was collected and some
    adapter rejected, the message listing the rejecting adapters' detailed
    messages in order under a header counting all supplied adapters;
    otherwise it resolves with the results of the adapters that resolved, in
    the order supplied. *)
Theorem webSearch_settles providers options :
  providers <> [] ->
  JsString.truthy (query options) = true \/
  ((exists a, In a providers /\ name a = "arxiv") /\
   JsString.truthy (idList options) = true) ->
  outcome (Engine.webSearch providers options) =
  match flat_map (fun p => match outcome (search p options) with
                           | Normal rs => rs
                           | Throw _ => []
                           end) providers,
        flat_map (fun p => match outcome (search p options) with
                           | Throw e => [Engine.detailedErrorMessage p e]
                           | Normal _ => []
                           end) providers with
  | [], failure :: failures =>
      Throw (Error (Engine.allFailedMessage (List.length providers) (failure :: failures)))
  | collected, _ => Normal collected
  end.
Proof.
  intros Hne Hq.
  rewrite (webSearch_outcome providers options Hne (missingQuery_false _ _ Hq)).
  cbv zeta. rewrite collected_results, collected_errors.
  destruct (flat_map _ providers) as [| r rs]; [| reflexivity].
  destruct (flat_map _ providers) as [| m ms]; reflexivity.
Qed.

Lemma webSearch_settles_witness :
  outcome (Engine.webSearch [Samples.adapterBoom; Samples.adapterA; Samples.adapter429]
             (Samples.noisyOptions (Some "q"))) = Normal [Samples.good].
Proof.
  apply (webSearch_settles [Samples.adapterBoom; Samples.adapterA; Samples.adapter429]
           (Samples.noisyOptions (Some "q")));
    [discriminate | left; reflexivity].
Defined.

Lemma searchOne_searchCalls options p :
  Observed.searchCalls (search p options) = [] ->
  Observed.searchCalls (Engine.searchOne options p) = [EvSearch (name p)].
Proof.
  unfold Observed.searchCalls, Engine.searchOne. intros Hs.
  rewrite filter_trace_tryCatch, filter_trace_bind.
  cbn [emit trace outcome fst snd filter Observed.isSearch].
  rewrite filter_trace_bind, Hs, outcome_bind. cbn [emit outcome snd].
  rewrite outcome_bind.
  destruct (outcome (search p options)) as [rs | e].
  - unobserve isSearch_ignoresLogging. reflexivity.
  - unobserve isSearch_ignoresLogging. reflexivity.
Qed.

Lemma collect_unobserved f dbg srs all errs :
  Observed.ignoresLogging f ->
  filter f (trace (Engine.collect dbg srs all errs)) = [].
Proof.
  intros Hf. revert all errs. induction srs as [| o rest IH]; intros all errs;
    [reflexivity |].
  cbn [Engine.collect]. destruct (Engine.o_error o) as [e |]; [| apply IH].
  rewrite filter_trace_bind, (log_unobserved _ _ _ _ Hf), log_outcome. apply IH.
Qed.

Lemma shipped_searchCalls P p options :
  Adapters.Shipped P p -> Observed.searchCalls (search p options) = [].
Proof.
  intros [b Hb]. unfold Observed.searchCalls.
  rewrite (configured_search_observed _ P b p options isSearch_ignoresLogging Hb).
  destruct (Adapters.accepts b options); [destruct b |]; reflexivity.
Qed.

(** X7.  Once its two checks pass, [webSearch] invokes the search of every
    supplied adapter exactly once, in the order supplied, whichever of them
    reject: no adapter is skipped or retried after another has failed.  With
    an arxiv adapter and an identifier list but no query this includes the
    adapters that cannot use the list. *)
Theorem every_adapter_invoked_once P providers options :
  providers <> [] ->
  JsString.truthy (query options) = true \/
  ((exists a, In a providers /\ name a = "arxiv") /\
   JsString.truthy (idList options) = true) ->
  (forall p, In p providers ->
             Adapters.Shipped P p \/ Observed.searchCalls (search p options) = []) ->
  Observed.searchCalls (Engine.webSearch providers options) =
  map (fun p => EvSearch (name p)) providers.
Proof.
  intros Hne Hq Hquiet.
  assert (Hs : forall p, In p providers -> Observed.searchCalls (search p options) = []).
  { intros p Hin. destruct (Hquiet p Hin) as [H | H];
      [apply (shipped_searchCalls P p options H) | exact H]. }
  clear Hquiet.
  assert (Hmap : forall ps, (forall p, In p ps -> In p providers) ->
            filter Observed.isSearch (trace (mapM (Engine.searchOne options) ps)) =
            map (fun p => EvSearch (name p)) ps).
  { induction ps as [| p ps IH]; intros Hsub; [reflexivity |].
    cbn [mapM map]. rewrite filter_trace_bind.
    fold (Observed.searchCalls (Engine.searchOne options p)).
    rewrite (searchOne_searchCalls options p (Hs p (Hsub p (or_introl eq_refl)))).
    rewrite searchOne_outcome, filter_trace_bind.
    rewrite IH by (intros q Hq'; apply Hsub; right; exact Hq').
    rewrite (outcome_mapM _ (fun p => Engine.settle p (outcome (search p options))))
      by (intros; apply searchOne_outcome).
    cbn. rewrite app_nil_r. reflexivity. }
  unfold Observed.searchCalls, Engine.webSearch.
  rewrite (missingQuery_false _ _ Hq).
  destruct providers as [| p0 ps]; [contradiction Hne; reflexivity |].
  cbn [List.length Nat.eqb].
  rewrite filter_trace_bind, (log_unobserved _ _ _ _ isSearch_ignoresLogging), log_outcome.
  rewrite filter_trace_bind, (Hmap (p0 :: ps) (fun p H => H)).
  rewrite (outcome_mapM _ (fun p => Engine.settle p (outcome (search p options))))
    by (intros; apply searchOne_outcome).
  rewrite filter_trace_bind, (collect_unobserved _ _ _ _ _ isSearch_ignoresLogging),
    collect_outcome.
  rewrite filter_trace_bind, (log_unobserved _ _ _ _ isSearch_ignoresLogging), log_outcome.
  cbn [app].
  match goal with |- context [if ?c then _ else _] => destruct c end;
    cbn; rewrite app_nil_r; reflexivity.
Qed.

Lemma every_adapter_invoked_once_witness :
  Observed.searchCalls
    (Engine.webSearch [Samples.pxHandle; Samples.axHandle; Samples.adapterBoom]
       MoreSamples.arxivOptions) =
  [EvSearch "perplexity"; EvSearch "arxiv"; EvSearch "B"].
Proof.
  apply (every_adapter_invoked_once Samples.mixedPlatform
           [Samples.pxHandle; Samples.axHandle; Samples.adapterBoom]
           MoreSamples.arxivOptions).
  - discriminate.
  - right. split; [exists Samples.axHandle; split; [right; left |]; reflexivity | reflexivity].
  - intros p [<- | [<- | [<- | []]]]; right; reflexivity.
Defined.




(** ** Troubleshooting text *)

Lemma blank_head c s :
  JsString.isWhitespace c = false -> JsString.blank (String c s) = false.
Proof.
  intros Hc. unfold JsString.blank, JsString.trim. cbn [JsString.trimStart].
  rewrite Hc. cbn [JsString.trimEnd].
  destruct (JsString.trimEnd s); [rewrite Hc |]; reflexivity.
Qed.

Lemma unlisted_eqb n :
  ~ In n Observed.switchCases ->
  String.eqb n "google" = false /\ String.eqb n "serpapi" = false /\
  String.eqb n "brave" = false /\ String.eqb n "searxng" = false /\
  String.eqb n "duckduckgo" = false /\ String.eqb n "perplexity" = false.
Proof.
  intros H. repeat split; apply String.eqb_neq; intros ->; apply H; cbn; tauto.
Qed.

(** X9.  For an adapter whose name is not one of the six the [switch] of
    [getTroubleshootingInfo] lists (so for parallel, arxiv and any
    caller-written adapter), the detailed error always ends with a
    "Troubleshooting:" section after the adapter's failure text; when the
    failure has no status code and its message does not contain
    "[object Object]", the section is the generic credentials hint naming the
    adapter. *)
Theorem unlisted_provider_gets_troubleshooting p e :
  ~ In (name p) Observed.switchCases ->
  exists hint,
    hint <> "" /\
    Engine.detailedErrorMessage p e =
      "Search with provider '" ++ name p ++ "' failed: " ++ messageOf e
      ++ nl ++ nl ++ "Troubleshooting: " ++ hint /\
    (statusCodeOf e = None ->
     JsString.includes (messageOf e) "[object Object]" = false ->
     hint = "Check your " ++ name p
            ++ " API credentials and make sure your search request is valid.").
Proof.
  intros Hn. destruct (unlisted_eqb _ Hn) as (E1 & E2 & E3 & E4 & E5 & E6).
  exists (Engine.getTroubleshootingInfo (name p) (messageOf e) (statusCodeOf e)).
  unfold Engine.detailedErrorMessage.
  assert (K : let hint := Engine.getTroubleshootingInfo (name p) (messageOf e)
                            (statusCodeOf e) in
              JsString.truthy (Some hint) = true /\ JsString.blank hint = false /\
              (statusCodeOf e = None ->
               JsString.includes (messageOf e) "[object Object]" = false ->
               hint = "Check your " ++ name p
                      ++ " API credentials and make sure your search request is valid.")).
  { cbv zeta. unfold Engine.getTroubleshootingInfo.
    rewrite E1, E2, E3, E4, E5, E6.
    destruct (JsString.includes (messageOf e) "[object Object]");
      destruct (statusCodeOf e) as [s |];
      try (destruct (s =? 0)%Z; [|
           destruct ((s =? 401)%Z || (s =? 403)%Z); [|
           destruct (s =? 400)%Z; [|
           destruct (s =? 429)%Z; [|
           destruct (s >=? 500)%Z]]]]);
      cbn [JsString.truthy negb append];
      repeat split; try reflexivity; try discriminate;
      try (apply blank_head; reflexivity). }
  cbv zeta in K. destruct K as (Kt & Kb & Kd).
  rewrite Kt, Kb. cbn [negb andb]. split; [| split].
  - intros E. rewrite E in Kt. discriminate.
  - reflexivity.
  - exact Kd.
Qed.

Lemma unlisted_provider_gets_troubleshooting_witness :
  exists hint,
    hint <> "" /\
    Engine.detailedErrorMessage Samples.axHandle (Error "Network error") =
      "Search with provider '" ++ name Samples.axHandle ++ "' failed: "
      ++ messageOf (Error "Network error") ++ nl ++ nl ++ "Troubleshooting: " ++ hint /\
    (statusCodeOf (Error "Network error") = None ->
     JsString.includes (messageOf (Error "Network error")) "[object Object]" = false ->
     hint = "Check your " ++ name Samples.axHandle
            ++ " API credentials and make sure your search request is valid.").
Proof.
  apply (unlisted_provider_gets_troubleshooting Samples.axHandle (Error "Network error")).
  cbn. intros [H | [H | [H | [H | [H | [H | []]]]]]]; discriminate.
Defined.

(** ** Failures of the transport *)

Lemma prefix_refl (s : string) : String.prefix s s = true.
Proof. rewrite <- (append_nil_r s) at 2. apply prefix_append. Qed.

Lemma perplexity_failureMessage_head e :
  String.prefix ("Perplexity search failed: " ++ messageOf e)
                (Perplexity.failureMessage e) = true.
Proof.
  unfold Perplexity.failureMessage. cbv zeta.
  destruct (JsString.truthy (Some (Perplexity.diagnosticInfo e))).
  - exact (prefix_append ("Perplexity search failed: " ++ messageOf e) _).
  - exact (prefix_refl ("Perplexity search failed: " ++ messageOf e)).
Qed.

Lemma parallel_failureMessage_head e :
  String.prefix ("Parallel search failed: " ++ messageOf e)
                (Parallel.failureMessage e) = true.
Proof.
  unfold Parallel.failureMessage. cbv zeta.
  destruct (JsString.truthy (Some (Parallel.diagnosticInfo e))).
  - exact (prefix_append ("Parallel search failed: " ++ messageOf e) _).
  - exact (prefix_refl ("Parallel search failed: " ++ messageOf e)).
Qed.

Lemma arxiv_failureMessage_head P c e :
  String.prefix (Observed.failureHead (Adapters.BArxiv c) e)
                (Arxiv.failureMessage P e) = true.
Proof.
  destruct e as [s m body | m | m]; cbn [Observed.failureHead Arxiv.failureMessage messageOf].
  - replace ("Arxiv API error: " ++ JsString.ofZ s ++ " - " ++ m ++
             match body with
             | Some b => if jsTruthy b then nl ++ "Response: " ++ jsonStringify P b else ""
             | None => ""
             end)
      with (("Arxiv API error: " ++ JsString.ofZ s ++ " - " ++ m) ++
            match body with
            | Some b => if jsTruthy b then nl ++ "Response: " ++ jsonStringify P b else ""
            | None => ""
            end)
      by (rewrite !append_assoc; reflexivity).
    apply prefix_append.
  - apply prefix_refl.
  - apply prefix_refl.
Qed.

(** X10.  When the transport (for arxiv, also the XML parser) throws, a
    configured handle rejects with an [Error] whose message begins with the
    provider's prefix followed by the whole underlying message:
    "Perplexity search failed: ", "Parallel search failed: ", and for arxiv
    "Arxiv API error: <status> - " for an HTTP error and
    "Arxiv search failed: " otherwise.  A thrown value that is not an [Error]
    is kept as its string. *)
Theorem transport_failure_is_wrapped P b p options e :
  Adapters.configure P b = Normal p ->
  Adapters.accepts b options = true ->
  Observed.transportFailure P b options = Some e ->
  exists message,
    outcome (search p options) = Throw (Error message) /\
    String.prefix (Observed.failureHead b e) message = true.
Proof.
  unfold Observed.transportFailure.
  destruct b as [c | c | c]; cbn [Adapters.configure Adapters.accepts Adapters.nativeUrls];
    intros Hb Ha Ht.
  - unfold Perplexity.configure, Perplexity.createPerplexityProvider in Hb.
    destruct (pxc_apiKey c) as [[| k0 k] |]; try discriminate.
    injection Hb as <-. cbn [search]. rewrite perplexity_search_outcome.
    destruct (query options) as [[| q0 q] |]; try discriminate.
    destruct (Perplexity.reply _ _ _ _ _) as [resp | e']; [discriminate |].
    injection Ht as ->. eexists. split; [reflexivity |].
    apply perplexity_failureMessage_head.
  - unfold Parallel.configure, Parallel.createParallelProvider in Hb.
    destruct (plc_apiKey c) as [[| k0 k] |]; try discriminate.
    injection Hb as <-. cbn [search]. rewrite parallel_search_outcome.
    destruct (query options) as [q |]; [| discriminate].
    destruct (Parallel.missingQuery (Some q)); [discriminate |].
    destruct (Parallel.reply _ _ _ _ _) as [resp | e']; [discriminate |].
    injection Ht as ->. eexists. split; [reflexivity |].
    apply parallel_failureMessage_head.
  - injection Hb as <-. unfold Arxiv.configure, Arxiv.createArxivProvider.
    cbn [search]. rewrite arxiv_search_outcome.
    destruct (Arxiv.missingQuery options); [discriminate |].
    destruct (getText P _ _) as [text | e'].
    + destruct (xmlParse P text) as [parsed | e']; [discriminate |].
      injection Ht as ->. eexists. split; [reflexivity |].
      apply arxiv_failureMessage_head.
    + injection Ht as ->. eexists. split; [reflexivity |].
      apply arxiv_failureMessage_head.
Qed.

Lemma transport_failure_is_wrapped_witness :
  exists message,
    outcome (search (Arxiv.configure MoreSamples.failingPlatform Samples.axConfig)
               (Samples.plainOptions (Some "q"))) = Throw (Error message) /\
    String.prefix (Observed.failureHead (Adapters.BArxiv Samples.axConfig)
                     (Error "XML parse error")) message = true.
Proof.
  apply (transport_failure_is_wrapped MoreSamples.failingPlatform
           (Adapters.BArxiv Samples.axConfig));
    reflexivity.
Defined.

(** ** Request bodies *)



(** X13.  In the perplexity request the caller's [region] takes precedence
    over [config.country], whereas [config.searchLanguageFilter] takes
    precedence over the caller's [language]. *)
Theorem perplexity_country_and_language_precedence config options q :
  (JsString.truthy (region options) = true ->
   pxb_country (Perplexity.requestBody config options q) = region options) /\
  (JsString.truthy (region options) = false ->
   JsString.truthy (pxc_country config) = true ->
   pxb_country (Perplexity.requestBody config options q) = pxc_country config) /\
  (forall l, pxc_searchLanguageFilter config = Some l ->
             pxb_search_language_filter (Perplexity.requestBody config options q) = Some l) /\
  (forall lang, pxc_searchLanguageFilter config = None ->
                language options = Some lang -> lang <> "" ->
                pxb_search_language_filter (Perplexity.requestBody config options q)
                = Some [lang]).
Proof.
  unfold Perplexity.requestBody. cbn [pxb_country pxb_search_language_filter].
  repeat split.
  - intros ->. reflexivity.
  - intros -> ->. reflexivity.
  - intros l ->. reflexivity.
  - intros lang -> -> Hl. destruct lang; [contradiction Hl |]; reflexivity.
Qed.

Lemma perplexity_country_and_language_precedence_witness :
  pxb_country
    (Perplexity.requestBody Samples.pxConfig
       {| query := Some "q"; idList := None; maxResults := None; region := Some "US";
          language := Some "en"; timeout := None; start := None; sortBy := None;
          sortOrder := None; debug := None |} "q") = Some "US".
Proof.
  apply (proj1 (perplexity_country_and_language_precedence Samples.pxConfig
                  {| query := Some "q"; idList := None; maxResults := None;
                     region := Some "US"; language := Some "en"; timeout := None;
                     start := None; sortBy := None; sortOrder := None; debug := None |}
                  "q")).
  reflexivity.
Defined.

(** ** Canonical results *)

(** X14.  In a parallel result the snippet is the first excerpt of the native
    record and the content contains every excerpt; a native record with no
    excerpts (absent or empty) gives a result with neither. *)
Theorem parallel_snippet_and_content d n :
  (forall e es, pl_excerpts n = Some (e :: es) ->
     snippet (Parallel.canonical d n) = Some e /\
     exists c, content (Parallel.canonical d n) = Some c /\
               forall x, In x (e :: es) -> JsString.includes c x = true) /\
  (pl_excerpts n = None \/ pl_excerpts n = Some [] ->
     snippet (Parallel.canonical d n) = None /\ content (Parallel.canonical d n) = None).
Proof.
  unfold Parallel.canonical. cbn [snippet content]. split.
  - intros e es ->. split; [reflexivity |].
    eexists. split; [reflexivity |].
    intros x Hx. destruct (join_In (nl ++ nl) x (e :: es) Hx) as (a & b & ->).
    apply includes_append.
  - intros [-> | ->]; split; reflexivity.
Qed.

Lemma parallel_snippet_and_content_witness :
  snippet (Parallel.canonical None MoreSamples.plExcerpted) = Some "First excerpt content" /\
  exists c, content (Parallel.canonical None MoreSamples.plExcerpted) = Some c /\
            forall x, In x ["First excerpt content"; "Second excerpt content"] ->
                      JsString.includes c x = true.
Proof.
  apply (proj1 (parallel_snippet_and_content None MoreSamples.plExcerpted)
           "First excerpt content" ["Second excerpt content"]).
  reflexivity.
Defined.

Lemma trimStart_chars c s :
  In c (list_ascii_of_string (JsString.trimStart s)) -> In c (list_ascii_of_string s).
Proof.
  induction s as [| x s IH]; [intros H; exact H |].
  cbn [JsString.trimStart]. destruct (JsString.isWhitespace x); [| intros H; exact H].
  intros H. right. apply IH. exact H.
Qed.

Lemma trimEnd_chars c s :
  In c (list_ascii_of_string (JsString.trimEnd s)) -> In c (list_ascii_of_string s).
Proof.
  induction s as [| x s IH]; [intros H; exact H |].
  cbn [JsString.trimEnd]. destruct (JsString.trimEnd s) as [| y r].
  - destruct (JsString.isWhitespace x); [intros [] |].
    intros [<- | []]. left. reflexivity.
  - intros [<- | H]; [left; reflexivity | right; apply IH; exact H].
Qed.

Lemma collapseNewlines_chars skipping s :
  ~ In (ascii_of_nat 10) (list_ascii_of_string (JsString.collapseNewlines skipping s)).
Proof.
  revert skipping. induction s as [| x s IH]; intros skipping; [intros [] |].
  cbn [JsString.collapseNewlines].
  destruct (skipping && JsString.isWhitespace x); [apply IH |].
  destruct (Ascii.eqb_spec x "010"%char) as [-> | Hx].
  - intros [H | H]; [vm_compute in H; discriminate | exact (IH true H)].
  - intros [H | H]; [apply Hx; exact H | exact (IH false H)].
Qed.

(** X15.  The title and the snippet of an arxiv result contain no line feed:
    the tidying of the native title and summary removes every one of them,
    wherever it stands. *)
Theorem arxiv_title_has_no_line_feed entry :
  (forall t, title (Arxiv.toSearchResult entry) = Some t ->
             ~ In (ascii_of_nat 10) (list_ascii_of_string t)) /\
  (forall t, snippet (Arxiv.toSearchResult entry) = Some t ->
             ~ In (ascii_of_nat 10) (list_ascii_of_string t)).
Proof.
  unfold Arxiv.toSearchResult. cbn [title snippet].
  split; intros t H; injection H as <-; unfold Arxiv.tidy, JsString.trim; intros Hin;
    apply trimEnd_chars, trimStart_chars in Hin;
    exact (collapseNewlines_chars false _ Hin).
Qed.

(** X16.  The url of an arxiv result is the href of the first link titled
    "pdf" when that href is not empty, and the entry's id when the entry has
    no link at all; it is never empty for an entry whose id is not empty. *)
Theorem arxiv_url_choice entry :
  (forall links l, ax_link entry = Some links ->
     find (fun l => match ln_title l with
                    | Some t => String.eqb t "pdf" | None => false end) links = Some l ->
     ln_href l <> "" -> Arxiv.urlOf entry = ln_href l) /\
  (ax_link entry = None \/ ax_link entry = Some [] -> Arxiv.urlOf entry = ax_id entry) /\
  (ax_id entry <> "" -> Arxiv.urlOf entry <> "").
Proof.
  unfold Arxiv.urlOf. cbv zeta. repeat split.
  - intros links l -> Hf Hne. unfold Arxiv.pdfLinkOf. rewrite Hf.
    destruct (ln_href l); [contradiction Hne |]; reflexivity.
  - intros [-> | ->]; reflexivity.
  - intros Hid. destruct (Arxiv.pdfLinkOf _) as [| c s]; cbn [JsString.truthy].
    + exact Hid.
    + discriminate.
Qed.

Lemma arxiv_url_choice_witness :
  Arxiv.urlOf {| ax_id := "http://arxiv.org/abs/fallback"; ax_updated := "";
                 ax_published := ""; ax_title := "No Link Entry"; ax_summary := "summary";
                 ax_author := None; ax_link := None; ax_category := None |}
  = "http://arxiv.org/abs/fallback".
Proof.
  apply (proj1 (proj2 (arxiv_url_choice
           {| ax_id := "http://arxiv.org/abs/fallback"; ax_updated := "";
              ax_published := ""; ax_title := "No Link Entry"; ax_summary := "summary";
              ax_author := None; ax_link := None; ax_category := None |}))).
  left. reflexivity.
Defined.

(** ** Configuration *)

(** X17.  [sortBy] and [sortOrder] of the arxiv configuration have no effect:
    two handles configured with the same base URL search identically, and the
    request carries the caller's [sortBy] and [sortOrder], or "relevance" and
    "descending" when the caller gives none. *)
Theorem arxiv_config_sort_is_ignored P c c' options :
  axc_baseUrl c = axc_baseUrl c' ->
  search (Arxiv.configure P c) options = search (Arxiv.configure P c') options /\
  In ("sortBy", match sortBy options with Some s => s | None => "relevance" end)
     (Arxiv.params options) /\
  In ("sortOrder", match sortOrder options with Some s => s | None => "descending" end)
     (Arxiv.params options).
Proof.
  intros Hb. split; [| split].
  - unfold Arxiv.configure, Arxiv.createArxivProvider. cbn [search].
    unfold Arxiv.baseUrlOf. rewrite Hb. reflexivity.
  - unfold Arxiv.params. apply in_or_app. right. apply in_or_app. right.
    cbn. tauto.
  - unfold Arxiv.params. apply in_or_app. right. apply in_or_app. right.
    cbn. tauto.
Qed.

Lemma arxiv_config_sort_is_ignored_witness :
  search (Arxiv.configure Samples.mixedPlatform MoreSamples.sortedConfig)
         (Samples.plainOptions (Some "q")) =
  search (Arxiv.configure Samples.mixedPlatform Samples.axConfig)
         (Samples.plainOptions (Some "q")) /\
  In ("sortBy", "relevance") (Arxiv.params (Samples.plainOptions (Some "q"))) /\
  In ("sortOrder", "descending") (Arxiv.params (Samples.plainOptions (Some "q"))).
Proof.
  apply (arxiv_config_sort_is_ignored Samples.mixedPlatform MoreSamples.sortedConfig
           Samples.axConfig (Samples.plainOptions (Some "q"))).
  reflexivity.
Defined.

(** X18.  [configure] of perplexity and of parallel fails exactly when the
    API key is missing or empty, with an error naming the provider; a handle
    it returns is named after the provider and keeps the configuration it
    was given. *)
Theorem configure_needs_api_key P :
  (forall c, JsString.truthy (pxc_apiKey c) = false <->
             Perplexity.configure P c = Throw (Error "Perplexity requires an API key")) /\
  (forall c, JsString.truthy (plc_apiKey c) = false <->
             Parallel.configure P c = Throw (Error "Parallel requires an API key")) /\
  (forall c p, Perplexity.configure P c = Normal p ->
               name p = "perplexity" /\ config p = CfgPerplexity c) /\
  (forall c p, Parallel.configure P c = Normal p ->
               name p = "parallel" /\ config p = CfgParallel c).
Proof.
  unfold Perplexity.configure, Perplexity.createPerplexityProvider,
    Parallel.configure, Parallel.createParallelProvider.
  repeat split.
  - destruct (pxc_apiKey c) as [[| k0 k] |]; try reflexivity. discriminate.
  - destruct (pxc_apiKey c) as [[| k0 k] |]; try reflexivity. discriminate.
  - destruct (plc_apiKey c) as [[| k0 k] |]; try reflexivity. discriminate.
  - destruct (plc_apiKey c) as [[| k0 k] |]; try reflexivity. discriminate.
  - destruct (pxc_apiKey c) as [[| k0 k] |]; try discriminate.
    injection H as <-. reflexivity.
  - destruct (pxc_apiKey c) as [[| k0 k] |]; try discriminate.
    injection H as <-. reflexivity.
  - destruct (plc_apiKey c) as [[| k0 k] |]; try discriminate.
    injection H as <-. reflexivity.
  - destruct (plc_apiKey c) as [[| k0 k] |]; try discriminate.
    injection H as <-. reflexivity.
Qed.

(** ** The MCP bridge *)

Lemma arxivConfigOf_configJson c :
  Mcp.arxivConfigOf (Mcp.configJson (CfgArxiv c)) = c.
Proof.
  destruct c as [k b sb so].
  destruct k, b, sb, so; reflexivity.
Qed.

Lemma arxiv_configure_again P c :
  match config (Arxiv.configure P c) with
  | CfgArxiv c' => Arxiv.createArxivProvider P c' = Arxiv.configure P c
  | _ => False
  end.
Proof.
  unfold Arxiv.configure, Arxiv.createArxivProvider. cbn [config].
  unfold Arxiv.baseUrlOf, JsString.orElse. cbn [axc_apiKey axc_baseUrl axc_sortBy axc_sortOrder].
  destruct (axc_apiKey c) as [[| k0 k] |]; reflexivity.
Qed.

Lemma mapC_throws {A B} (f : A -> Completion B) (xs : list A) (x : A) :
  In x xs -> (exists e, f x = Throw e) -> exists e, Mcp.mapC f xs = Throw e.
Proof.
  induction xs as [| y ys IH]; intros Hin Hx; [contradiction |].
  cbn [Mcp.mapC]. destruct (f y) as [b | e] eqn:Ey; [| exists e; reflexivity].
  destruct Hin as [-> | Hin].
  - destruct Hx as [e He]. rewrite He in Ey. discriminate.
  - destruct (IH Hin Hx) as [e ->]. exists e. reflexivity.
Qed.

(** X19.  [asMcp] fails exactly on an empty list; otherwise it returns the
    [node] command with the CLI path as its only argument and one environment
    variable holding the document, which lists one entry per handle, in
    order, under the handle's name.  The entry of a perplexity or parallel
    handle carries the API key as it was configured, not masked. *)
Theorem asMcp_document P cliPath providers :
  (providers = [] <->
   Mcp.asMcp P cliPath providers =
     Throw (Error "asMcp requires at least one configured search provider.")) /\
  (providers <> [] ->
   Mcp.asMcp P cliPath providers =
     Normal {| Mcp.command := "node";
               Mcp.args := [cliPath];
               Mcp.env := [("SEARCH_SDK_MCP_CONFIG",
                            jsonStringify P
                              (Mcp.documentJson (Mcp.serializableConfig providers)))] |}) /\
  map Mcp.e_name (Mcp.serializableConfig providers) = map name providers /\
  (forall b p, In p providers -> Adapters.configure P b = Normal p ->
     match b with
     | Adapters.BPerplexity c =>
         Mcp.stringField "apiKey" (Mcp.configJson (config p)) = pxc_apiKey c
     | Adapters.BParallel c =>
         Mcp.stringField "apiKey" (Mcp.configJson (config p)) = plc_apiKey c
     | Adapters.BArxiv _ => True
     end).
Proof.
  split; [| split; [| split]].
  - destruct providers; split; intros H; try reflexivity; discriminate.
  - destruct providers as [| p ps]; [intros H; contradiction H |]; reflexivity.
  - unfold Mcp.serializableConfig. rewrite map_map. reflexivity.
  - intros [c | c | c] p _ Hb; cbn in Hb; [| | exact I].
    + unfold Perplexity.configure, Perplexity.createPerplexityProvider in Hb.
      destruct (pxc_apiKey c) as [[| k0 k] |] eqn:Hk; try discriminate.
      injection Hb as <-. cbn [config Mcp.configJson]. rewrite Hk. reflexivity.
    + unfold Parallel.configure, Parallel.createParallelProvider in Hb.
      destruct (plc_apiKey c) as [[| k0 k] |] eqn:Hk; try discriminate.
      injection Hb as <-. cbn [config Mcp.configJson]. rewrite Hk. reflexivity.
Qed.

Lemma asMcp_document_witness :
  Mcp.asMcp Samples.mixedPlatform "/dist/mcp/cli.js" [Samples.pxHandle] =
  Normal {| Mcp.command := "node";
            Mcp.args := ["/dist/mcp/cli.js"];
            Mcp.env := [("SEARCH_SDK_MCP_CONFIG",
                         jsonStringify Samples.mixedPlatform
                           (Mcp.documentJson (Mcp.serializableConfig [Samples.pxHandle])))] |}.
Proof.
  apply (proj1 (proj2 (asMcp_document Samples.mixedPlatform "/dist/mcp/cli.js"
                         [Samples.pxHandle]))).
  discriminate.
Defined.

(** X20.  Arxiv handles survive the bridge: the entries [asMcp] writes for a
    non-empty list of configured arxiv handles are hydrated by the CLI into
    the same handles, with the same name, configuration and search (the CLI
    reading back from the environment variable the entries that [asMcp]
    serialized into it). *)
Theorem arxiv_handles_survive_the_bridge P others cs :
  cs <> [] ->
  Mcp.hydrate P others (Some (Mcp.serializableConfig (map (Arxiv.configure P) cs))) =
  Normal (map (Arxiv.configure P) cs).
Proof.
  intros Hne.
  assert (E : forall l,
            Mcp.mapC (fun p =>
                        match Mcp.providerFactory P others (Mcp.e_name p) with
                        | Some create => create (Mcp.e_config p)
                        | None => Throw (Error ("Unknown provider specified in config: "
                                                ++ Mcp.e_name p))
                        end)
                     (Mcp.serializableConfig (map (Arxiv.configure P) l)) =
            Normal (map (Arxiv.configure P) l)).
  { induction l as [| c l IH]; [reflexivity |].
    cbn [map Mcp.serializableConfig Mcp.mapC Mcp.e_name Mcp.e_config] in *.
    change (name (Arxiv.configure P c)) with "arxiv".
    cbn [Mcp.providerFactory String.eqb Ascii.eqb Bool.eqb andb].
    pose proof (arxiv_configure_again P c) as R.
    destruct (config (Arxiv.configure P c)) as [x | x | c' | x] eqn:Ec; try contradiction.
    rewrite arxivConfigOf_configJson, R.
    unfold Mcp.serializableConfig in IH. rewrite IH. reflexivity. }
  destruct cs as [| c cs]; [contradiction Hne; reflexivity |].
  unfold Mcp.hydrate.
  destruct (Mcp.serializableConfig (map (Arxiv.configure P) (c :: cs))) as [| e es] eqn:Es;
    [discriminate |].
  rewrite <- Es. apply E.
Qed.

Lemma arxiv_handles_survive_the_bridge_witness :
  Mcp.hydrate Samples.mixedPlatform MoreSamples.noOthers
    (Some (Mcp.serializableConfig
             (map (Arxiv.configure Samples.mixedPlatform)
                  [MoreSamples.sortedConfig; Samples.axConfig]))) =
  Normal (map (Arxiv.configure Samples.mixedPlatform)
              [MoreSamples.sortedConfig; Samples.axConfig]).
Proof.
  apply (arxiv_handles_survive_the_bridge Samples.mixedPlatform MoreSamples.noOthers
           [MoreSamples.sortedConfig; Samples.axConfig]).
  discriminate.
Defined.

(** X21.  The CLI cannot hydrate a perplexity or a parallel handle, nor any
    handle whose name its factory map does not know: a document written by
    [asMcp] that contains one makes the hydration fail, and when that handle
    comes first the error is "Unknown provider specified in config: <name>". *)
Theorem unlisted_provider_stops_hydration P others providers p :
  In p providers ->
  name p = "perplexity" \/ name p = "parallel" \/
  Mcp.providerFactory P others (name p) = None ->
  (exists e, Mcp.hydrate P others (Some (Mcp.serializableConfig providers)) = Throw e) /\
  (forall rest, providers = p :: rest ->
     Mcp.hydrate P others (Some (Mcp.serializableConfig providers)) =
     Throw (Error ("Unknown provider specified in config: " ++ name p))).
Proof.
  intros Hin Hn.
  assert (Hnone : Mcp.providerFactory P others (name p) = None).
  { destruct Hn as [-> | [-> | H]]; [reflexivity | reflexivity | exact H]. }
  split.
  - unfold Mcp.hydrate.
    destruct (Mcp.serializableConfig providers) as [| e es] eqn:Es.
    + destruct providers; [contradiction | discriminate].
    + rewrite <- Es.
      apply (mapC_throws _ _ {| Mcp.e_name := name p;
                                Mcp.e_config := Mcp.configJson (config p) |}).
      * unfold Mcp.serializableConfig.
        apply (in_map (fun q => {| Mcp.e_name := name q;
                                   Mcp.e_config := Mcp.configJson (config q) |})).
        exact Hin.
      * cbn [Mcp.e_name]. rewrite Hnone. eexists. reflexivity.
  - intros rest ->. cbn [Mcp.serializableConfig map Mcp.hydrate Mcp.mapC Mcp.e_name].
    rewrite Hnone. reflexivity.
Qed.

Lemma unlisted_provider_stops_hydration_witness :
  (exists e, Mcp.hydrate Samples.mixedPlatform MoreSamples.noOthers
               (Some (Mcp.serializableConfig [Samples.axHandle; Samples.plHandle])) = Throw e) /\
  (forall rest, [Samples.axHandle; Samples.plHandle] = Samples.plHandle :: rest ->
     Mcp.hydrate Samples.mixedPlatform MoreSamples.noOthers
       (Some (Mcp.serializableConfig [Samples.axHandle; Samples.plHandle])) =
     Throw (Error ("Unknown provider specified in config: " ++ name Samples.plHandle))).
Proof.
  apply (unlisted_provider_stops_hydration Samples.mixedPlatform MoreSamples.noOthers
           [Samples.axHandle; Samples.plHandle] Samples.plHandle).
  - right. left. reflexivity.
  - right. left. reflexivity.
Defined.

(** ** What the engine logs *)

Lemma log_trace_with_logger options f message data :
  Debug.loggerOf options = Some f ->
  Debug.flag Debug.enabled options = true ->
  trace (Debug.log options message data) = [EvLogger message data].
Proof.
  intros Hf He. unfold Debug.log, Debug.callLogger. rewrite He, Hf.
  destruct (f message data) as [[] | e]; reflexivity.
Qed.

Lemma succeeded_settled providers options :
  Engine.succeeded (map (fun p => Engine.settle p (outcome (search p options))) providers) =
  List.length (filter (fun p => match outcome (search p options) with
                                | Normal _ => true
                                | Throw _ => false
                                end) providers).
Proof.
  unfold Engine.succeeded. induction providers as [| p ps IH]; [reflexivity |].
  cbn [map filter]. destruct (outcome (search p options)); cbn; rewrite IH; reflexivity.
Qed.

(** X22.  With debugging enabled and a caller-supplied logger, a [webSearch]
    call that passes its checks logs first the line naming the number of
    adapters and their names, before any adapter is invoked, and last the
    summary line, whether it then resolves or rejects; the summary counts the
    results collected, the adapters that resolved and the adapters
    supplied. *)
Theorem webSearch_logs_start_and_summary providers options f :
  providers <> [] ->
  JsString.truthy (query options) = true \/
  ((exists a, In a providers /\ name a = "arxiv") /\
   JsString.truthy (idList options) = true) ->
  Debug.loggerOf (debug options) = Some f ->
  Debug.flag Debug.enabled (debug options) = true ->
  exists d1 middle d2,
    trace (Engine.webSearch providers options) =
    (EvLogger ("Performing search with " ++ JsString.ofNat (List.length providers)
               ++ " provider(s): " ++ JsString.join ", " (map name providers)) d1
     :: middle
     ++ [EvLogger
           ("Search complete: "
            ++ JsString.ofNat
                 (List.length
                    (flat_map (fun p => match outcome (search p options) with
                                        | Normal rs => rs
                                        | Throw _ => []
                                        end) providers))
            ++ " total results from "
            ++ JsString.ofNat
                 (List.length
                    (filter (fun p => match outcome (search p options) with
                                      | Normal _ => true
                                      | Throw _ => false
                                      end) providers))
            ++ "/" ++ JsString.ofNat (List.length providers) ++ " providers") d2])%list.
Proof.
  intros Hne Hq Hf He. unfold Engine.webSearch.
  rewrite (missingQuery_false _ _ Hq).
  destruct providers as [| p0 ps]; [contradiction Hne; reflexivity |].
  cbn [List.length Nat.eqb].
  rewrite trace_bind, log_outcome, (log_trace_with_logger _ f _ _ Hf He).
  rewrite trace_bind.
  rewrite (outcome_mapM _ (fun p => Engine.settle p (outcome (search p options))))
    by (intros; apply searchOne_outcome).
  rewrite trace_bind, collect_outcome.
  rewrite trace_bind, log_outcome, (log_trace_with_logger _ f _ _ Hf He).
  cbn [fst snd app].
  rewrite succeeded_settled, collected_results.
  eexists _, _, _.
  cbn [app]. f_equal.
  match goal with |- context [if ?c then _ else _] => destruct c end;
    cbn [trace fst throw ret]; rewrite app_assoc; reflexivity.
Qed.

Lemma webSearch_logs_start_and_summary_witness :
  exists d1 middle d2,
    trace (Engine.webSearch [Samples.adapter429; Samples.adapterBoom]
             (Samples.noisyOptions (Some "q"))) =
    (EvLogger ("Performing search with "
               ++ JsString.ofNat (List.length [Samples.adapter429; Samples.adapterBoom])
               ++ " provider(s): "
               ++ JsString.join ", " (map name [Samples.adapter429; Samples.adapterBoom])) d1
     :: middle
     ++ [EvLogger
           ("Search complete: "
            ++ JsString.ofNat
                 (List.length
                    (flat_map (fun p => match outcome (search p (Samples.noisyOptions (Some "q"))) with
                                        | Normal rs => rs
                                        | Throw _ => []
                                        end) [Samples.adapter429; Samples.adapterBoom]))
            ++ " total results from "
            ++ JsString.ofNat
                 (List.length
                    (filter (fun p => match outcome (search p (Samples.noisyOptions (Some "q"))) with
                                      | Normal _ => true
                                      | Throw _ => false
                                      end) [Samples.adapter429; Samples.adapterBoom]))
            ++ "/"
            ++ JsString.ofNat (List.length [Samples.adapter429; Samples.adapterBoom])
            ++ " providers") d2])%list.
Proof.
  apply (webSearch_logs_start_and_summary [Samples.adapter429; Samples.adapterBoom]
           (Samples.noisyOptions (Some "q")) Samples.throwingLogger);
    [discriminate | left; reflexivity | reflexivity | reflexivity].
Defined.

(** X23.  The authors and the categories of an arxiv result contain no empty
    string, and every non-empty author name and category term of the native
    entry is kept, in order. *)
Theorem arxiv_authors_and_categories entry :
  authors (Arxiv.toSearchResult entry) =
    Some (filter (fun s => negb (String.eqb s ""))
                 (match ax_author entry with Some l => l | None => [] end)) /\
  categories (Arxiv.toSearchResult entry) =
    Some (filter (fun s => negb (String.eqb s ""))
                 (match ax_category entry with Some l => l | None => [] end)) /\
  (forall l, authors (Arxiv.toSearchResult entry) = Some l -> ~ In "" l) /\
  (forall l, categories (Arxiv.toSearchResult entry) = Some l -> ~ In "" l).
Proof.
  assert (F : forall l, Arxiv.nonEmptyStrings l = filter (fun s => negb (String.eqb s "")) l).
  { intros l. unfold Arxiv.nonEmptyStrings. apply filter_ext. intros [| c s]; reflexivity. }
  unfold Arxiv.toSearchResult. cbn [authors categories]. rewrite !F.
  repeat split; intros l H; injection H as <-; intros Hin;
    apply filter_In in Hin; destruct Hin as [_ Hin]; discriminate.
Qed.

(** ** Hints for the listed providers and for HTTP statuses *)

(** X24.  For an adapter named as one of the six providers the [switch]
    lists, a failure without a status code whose message contains neither
    "[object Object]" nor one of that provider's words gets no
    troubleshooting section: the detailed message is just the provider name
    and the failure text.  (Adapters with other names get the generic
    credentials hint there.) *)
Theorem listed_provider_without_hint p e :
  In (name p) Observed.switchCases ->
  statusCodeOf e = None ->
  JsString.includes (messageOf e) "[object Object]" = false ->
  (forall k, In k (Observed.keywords (name p)) -> JsString.includes (messageOf e) k = false) ->
  Engine.detailedErrorMessage p e =
  "Search with provider '" ++ name p ++ "' failed: " ++ messageOf e.
Proof.
  intros Hin Hs Ho Hk.
  assert (G : Engine.getTroubleshootingInfo (name p) (messageOf e) (statusCodeOf e) = "").
  { unfold Engine.getTroubleshootingInfo. rewrite Hs, Ho.
    cbn in Hin.
    destruct Hin as [E | [E | [E | [E | [E | [E | []]]]]]]; rewrite <- E in *;
      cbn in Hk |- *;
      repeat match goal with
             | |- context [JsString.includes (messageOf e) ?k] =>
                 rewrite (Hk k) by (cbn; tauto)
             end;
      reflexivity. }
  unfold Engine.detailedErrorMessage. rewrite G. cbn [JsString.truthy andb].
  rewrite append_nil_r. reflexivity.
Qed.

Lemma listed_provider_without_hint_witness :
  Engine.detailedErrorMessage Samples.pxHandle (Error "Network error") =
  "Search with provider '" ++ name Samples.pxHandle ++ "' failed: "
  ++ messageOf (Error "Network error").
Proof.
  apply (listed_provider_without_hint Samples.pxHandle (Error "Network error")).
  - cbn. tauto.
  - reflexivity.
  - reflexivity.
  - intros k [<- | [<- | []]]; reflexivity.
Defined.

Lemma includes_tail (a b t : string) :
  JsString.includes b t = true -> JsString.includes (a ++ b) t = true.
Proof. apply includes_after. Qed.

(** X25.  When the transport fails with an HTTP error, the perplexity and
    parallel adapters add a "Diagnostic information:" section and their API
    docs link for the statuses 401, 403 and 429 and for every status from 500
    up, naming an invalid key, denied access, the rate limit or a server
    error; for a status they have no text for, such as 404, the message is
    only the prefix and the underlying message. *)
Theorem http_status_diagnostics s m body :
  ((s = 401 \/ s = 403 \/ s = 429 \/ 500 <= s)%Z ->
   let hint := if (s =? 401)%Z then "Invalid API key."
               else if (s =? 403)%Z then "Access denied."
               else if (s =? 429)%Z then "Rate limit exceeded."
               else "server error." in
   JsString.includes (Perplexity.failureMessage (HttpError s m body))
     "Diagnostic information: " = true /\
   JsString.includes (Perplexity.failureMessage (HttpError s m body)) hint = true /\
   JsString.includes (Perplexity.failureMessage (HttpError s m body))
     "Perplexity API docs: https://docs.perplexity.ai/api-reference" = true /\
   JsString.includes (Parallel.failureMessage (HttpError s m body))
     "Diagnostic information: " = true /\
   JsString.includes (Parallel.failureMessage (HttpError s m body)) hint = true /\
   JsString.includes (Parallel.failureMessage (HttpError s m body))
     "Parallel API docs: https://api.parallel.ai" = true) /\
  ((s < 500)%Z -> s <> 400%Z -> s <> 401%Z -> s <> 403%Z -> s <> 429%Z -> s <> 422%Z ->
   Perplexity.failureMessage (HttpError s m body) = "Perplexity search failed: " ++ m /\
   Parallel.failureMessage (HttpError s m body) = "Parallel search failed: " ++ m).
Proof.
  split.
  - intros Hs. cbv zeta.
    unfold Perplexity.failureMessage, Parallel.failureMessage,
      Perplexity.diagnosticInfo, Parallel.diagnosticInfo. cbv zeta.
    destruct (Z.eqb_spec s 401) as [-> | N1]; [cbn; repeat split;
      repeat (first [ reflexivity | apply includes_here
                    | progress (apply includes_tail) ]) |].
    destruct (Z.eqb_spec s 403) as [-> | N2]; [cbn; repeat split;
      repeat (first [ reflexivity | apply includes_here
                    | progress (apply includes_tail) ]) |].
    destruct (Z.eqb_spec s 429) as [-> | N3]; [cbn; repeat split;
      repeat (first [ reflexivity | apply includes_here
                    | progress (apply includes_tail) ]) |].
    assert (H5 : (500 <= s)%Z) by (destruct Hs as [? | [? | [? | ?]]]; [lia | lia | lia | assumption]).
    destruct (Z.eqb_spec s 400) as [-> | N4]; [lia |].
    destruct (Z.eqb_spec s 422) as [-> | N5]; [lia |].
    assert (G : (s >=? 500)%Z = true) by (apply Z.geb_le; lia).
    rewrite G. cbn. repeat split;
      repeat (first [ reflexivity | apply includes_here
                    | progress (apply includes_tail) ]).
  - intros H5 N4 N1 N3 N9 N2.
    unfold Perplexity.failureMessage, Parallel.failureMessage,
      Perplexity.diagnosticInfo, Parallel.diagnosticInfo. cbv zeta.
    rewrite (proj2 (Z.eqb_neq s 401) N1), (proj2 (Z.eqb_neq s 403) N3),
      (proj2 (Z.eqb_neq s 429) N9), (proj2 (Z.eqb_neq s 400) N4),
      (proj2 (Z.eqb_neq s 422) N2).
    assert (G : (s >=? 500)%Z = false) by (rewrite Z.geb_leb; apply Z.leb_gt; lia).
    rewrite G. split; reflexivity.
Qed.
